(** * Access-control gate of the Discord MCP server

    A shallow embedding of [src/app/auth/middleware.py] (API-key issuance,
    verification, the authentication middleware and the permission checker)
    and of the issuance endpoint of [src/app/main.py], together with the
    properties the specification states about them.

    Conventions of the embedding.
    - A Python [str] is a Rocq [string].  For header values this is exact:
      the ASGI layer decodes header bytes as latin-1, one character per byte,
      so [len] is [String.length].  For the arguments of [generate_api_key]
      the string stands for its UTF-8 encoding, which is all the function
      uses ([encode] and concatenation).
    - [bytes] are lists of integers in [0, 256), 32-bit words are integers
      in [0, 2^32) with the wrap-around written out.
    - [hashlib.sha256] and [hmac.new] are library code; they are embedded
      from FIPS 180-4 and RFC 2104 and checked on published test vectors. *)

From Stdlib Require Import ZArith List String Ascii Bool Lia.
From stdpp Require Import base decidable option list strings gmap.
Import ListNotations.

(** ** Python built-ins used by the module *)

Module Py.

(** [s.startswith(p)] *)
Definition startswith (s p : string) : bool := String.prefix p s.

(** [len(s)] *)
Definition len (s : string) : Z := Z.of_nat (String.length s).

(** [s[:n]] for a non-negative [n] *)
Definition slice_to (n : nat) (s : string) : string := substring 0 n s.

(** Truthiness of an [Optional[str]]: [None] and [""] are falsy. *)
Definition truthy (v : option string) : bool :=
  match v with
  | Some (String _ _) => true
  | _ => false
  end.

(** [a or b] on [Optional[str]] values *)
Definition or_else (a b : option string) : option string :=
  if truthy a then a else b.

(** [s.replace(old, new)] for a non-empty [old]: occurrences are found from
    the left and do not overlap.  [skip] counts the characters of a match
    that are still to be dropped. *)
Fixpoint replace_from (old new : string) (skip : nat) (s : string) : string :=
  match s with
  | EmptyString => EmptyString
  | String c rest =>
      match skip with
      | S k => replace_from old new k rest
      | O =>
          if String.prefix old s
          then new +:+ replace_from old new (String.length old - 1) rest
          else String c (replace_from old new 0 rest)
      end
  end.

(** With an empty [old], Python puts [new] before every character and at
    the end. *)
Fixpoint intersperse_all (new s : string) : string :=
  match s with
  | EmptyString => new
  | String c rest => new +:+ String c (intersperse_all new rest)
  end.

(** [s.replace(old, new)] *)
Definition replace (s old new : string) : string :=
  match old with
  | EmptyString => intersperse_all new s
  | String _ _ => replace_from old new 0 s
  end.

(** [s.lower()] on ASCII letters, as used for header names *)
Definition lower_char (c : ascii) : ascii :=
  let n := nat_of_ascii c in
  if (65 <=? n)%nat && (n <=? 90)%nat then ascii_of_nat (n + 32) else c.

Fixpoint lower (s : string) : string :=
  match s with
  | EmptyString => EmptyString
  | String c rest => String (lower_char c) (lower rest)
  end.

(** [s.upper()] on strings of one-byte characters, for the comparison
    with ASCII words: only ASCII letters change. *)
Definition upper_char (c : ascii) : ascii :=
  let n := nat_of_ascii c in
  if (97 <=? n)%nat && (n <=? 122)%nat then ascii_of_nat (n - 32) else c.

Fixpoint upper (s : string) : string :=
  match s with
  | EmptyString => EmptyString
  | String c rest => String (upper_char c) (upper rest)
  end.

(** [s.encode()]: the bytes of the string *)
Fixpoint encode (s : string) : list Z :=
  match s with
  | EmptyString => []
  | String c rest => Z.of_N (N_of_ascii c) :: encode rest
  end.

End Py.

(** ** [hashlib.sha256] (FIPS 180-4) *)

Module hashlib.
Local Open Scope Z_scope.

Definition mask32 : Z := 0xffffffff.
Definition add32 (x y : Z) : Z := (x + y) mod 2 ^ 32.
Definition not32 (x : Z) : Z := Z.lxor x mask32.
Definition rotr (n x : Z) : Z :=
  Z.lor (Z.shiftr x n) (Z.land (Z.shiftl x (32 - n)) mask32).

Definition Ch (x y z : Z) : Z := Z.lxor (Z.land x y) (Z.land (not32 x) z).
Definition Maj (x y z : Z) : Z :=
  Z.lxor (Z.lxor (Z.land x y) (Z.land x z)) (Z.land y z).
Definition bsig0 (x : Z) : Z := Z.lxor (Z.lxor (rotr 2 x) (rotr 13 x)) (rotr 22 x).
Definition bsig1 (x : Z) : Z := Z.lxor (Z.lxor (rotr 6 x) (rotr 11 x)) (rotr 25 x).
Definition ssig0 (x : Z) : Z := Z.lxor (Z.lxor (rotr 7 x) (rotr 18 x)) (Z.shiftr x 3).
Definition ssig1 (x : Z) : Z := Z.lxor (Z.lxor (rotr 17 x) (rotr 19 x)) (Z.shiftr x 10).

(** The first sixty-four primes. *)
Definition primes : list Z :=
  [ 2; 3; 5; 7; 11; 13; 17; 19; 23; 29; 31; 37; 41; 43; 47; 53;
    59; 61; 67; 71; 73; 79; 83; 89; 97; 101; 103; 107; 109; 113; 127; 131;
    137; 139; 149; 151; 157; 163; 167; 173; 179; 181; 191; 193; 197; 199; 211; 223;
    227; 229; 233; 239; 241; 251; 257; 263; 269; 271; 277; 281; 283; 293; 307; 311 ].

(** Integer cube root, one bit at a time from bit [n - 1] down. *)
Fixpoint cube_root_bits (n : nat) (x r : Z) : Z :=
  match n with
  | O => r
  | S n' =>
      let r' := r + 2 ^ Z.of_nat n' in
      cube_root_bits n' x (if r' * r' * r' <=? x then r' else r)
  end.

(** The first thirty-two bits of the fractional part of a cube root and of
    a square root. *)
Definition cube_root_fraction (p : Z) : Z :=
  cube_root_bits 40 (p * 2 ^ 96) 0 mod 2 ^ 32.
Definition square_root_fraction (p : Z) : Z :=
  Z.sqrt (p * 2 ^ 64) mod 2 ^ 32.

(** Round constants (FIPS 180-4, 4.2.2): the fractional parts of the cube
    roots of the first sixty-four primes. *)
Definition round_constants : list Z :=
  Eval vm_compute in map cube_root_fraction primes.

(** The eight working variables, also the chaining value. *)
Record regs : Type := Regs {
  ra : Z; rb : Z; rc : Z; rd : Z; re : Z; rf : Z; rg : Z; rh : Z
}.

(** Initial hash value (FIPS 180-4, 5.3.3): the fractional parts of the
    square roots of the first eight primes. *)
Definition initial_hash : regs :=
  Eval vm_compute in
  Regs (square_root_fraction 2) (square_root_fraction 3)
       (square_root_fraction 5) (square_root_fraction 7)
       (square_root_fraction 11) (square_root_fraction 13)
       (square_root_fraction 17) (square_root_fraction 19).

(** Big-endian packing of bytes into words and back *)
Fixpoint words_of_bytes (bs : list Z) : list Z :=
  match bs with
  | b0 :: b1 :: b2 :: b3 :: rest =>
      (Z.shiftl b0 24 + Z.shiftl b1 16 + Z.shiftl b2 8 + b3) :: words_of_bytes rest
  | _ => []
  end.

Definition bytes_of_word (w : Z) : list Z :=
  [ Z.land (Z.shiftr w 24) 255; Z.land (Z.shiftr w 16) 255;
    Z.land (Z.shiftr w 8) 255; Z.land w 255 ].

Definition bytes_of_len (bits : Z) : list Z :=
  bytes_of_word (Z.shiftr bits 32) ++ bytes_of_word (Z.land bits mask32).

(** Padding: a one bit, zeros up to 56 modulo 64, then the bit length. *)
Definition pad (msg : list Z) : list Z :=
  let n := Z.of_nat (length msg) in
  msg ++ [0x80] ++ repeat 0 (Z.to_nat ((55 - n) mod 64)) ++ bytes_of_len (8 * n).

(** Message schedule: sixteen words of the block, extended to sixty-four. *)
Fixpoint extend (n : nat) (W : list Z) : list Z :=
  match n with
  | O => W
  | S n' =>
      let t := length W in
      let w := add32 (add32 (ssig1 (nth (t - 2) W 0)) (nth (t - 7) W 0))
                     (add32 (ssig0 (nth (t - 15) W 0)) (nth (t - 16) W 0)) in
      extend n' (W ++ [w])
  end.

Definition schedule (block : list Z) : list Z :=
  extend 48 (words_of_bytes block).

Definition round (s : regs) (kw : Z * Z) : regs :=
  let t1 := add32 (add32 (add32 (rh s) (bsig1 (re s))) (Ch (re s) (rf s) (rg s)))
                  (add32 (fst kw) (snd kw)) in
  let t2 := add32 (bsig0 (ra s)) (Maj (ra s) (rb s) (rc s)) in
  Regs (add32 t1 t2) (ra s) (rb s) (rc s) (add32 (rd s) t1) (re s) (rf s) (rg s).

Definition compress (h : regs) (block : list Z) : regs :=
  let s := fold_left round (combine round_constants (schedule block)) h in
  Regs (add32 (ra h) (ra s)) (add32 (rb h) (rb s)) (add32 (rc h) (rc s))
       (add32 (rd h) (rd s)) (add32 (re h) (re s)) (add32 (rf h) (rf s))
       (add32 (rg h) (rg s)) (add32 (rh h) (rh s)).

Fixpoint blocks (n : nat) (bs : list Z) : list (list Z) :=
  match n with
  | O => []
  | S n' => firstn 64 bs :: blocks n' (skipn 64 bs)
  end.

Definition digest_of_regs (h : regs) : list Z :=
  bytes_of_word (ra h) ++ bytes_of_word (rb h) ++ bytes_of_word (rc h) ++
  bytes_of_word (rd h) ++ bytes_of_word (re h) ++ bytes_of_word (rf h) ++
  bytes_of_word (rg h) ++ bytes_of_word (rh h).

(** [hashlib.sha256(msg).digest()] *)
Definition sha256 (msg : list Z) : list Z :=
  let padded := pad msg in
  digest_of_regs
    (fold_left compress (blocks (length padded / 64) padded) initial_hash).

Definition block_size : nat := 64.

(** Lower-case hexadecimal rendering of bytes, as [hexdigest] gives it. *)
Definition hex_digit (n : Z) : ascii :=
  nth (Z.to_nat n)
      (list_ascii_of_string "0123456789abcdef") "0"%char.

Fixpoint hexlify (bs : list Z) : string :=
  match bs with
  | [] => EmptyString
  | b :: rest =>
      String (hex_digit (Z.land (Z.shiftr b 4) 15))
             (String (hex_digit (Z.land b 15)) (hexlify rest))
  end.

End hashlib.

(** ** [hmac.new(key, msg, hashlib.sha256)] (RFC 2104) *)

Module hmac.
Local Open Scope Z_scope.

(** Keys longer than a block are hashed first; the key is then padded with
    zero bytes to the block size. *)
Definition block_key (key : list Z) : list Z :=
  let k := if (hashlib.block_size <? length key)%nat
           then hashlib.sha256 key else key in
  k ++ repeat 0 (hashlib.block_size - length k).

Definition xor_pad (c : Z) (key : list Z) : list Z := map (Z.lxor c) key.

(** [hmac.new(key, msg, hashlib.sha256).digest()] *)
Definition digest (key msg : list Z) : list Z :=
  let k := block_key key in
  hashlib.sha256 (xor_pad 0x5c k ++ hashlib.sha256 (xor_pad 0x36 k ++ msg)).

(** [hmac.new(key, msg, hashlib.sha256).hexdigest()] *)
Definition hexdigest (key msg : list Z) : string :=
  hashlib.hexlify (digest key msg).

End hmac.

(** ** Values, requests and responses *)

(** The values stored in the dictionaries of this module: strings and lists
    of strings. *)
Inductive pyval : Type :=
  | PStr (s : string)
  | PList (l : list string).

Global Instance pyval_eq_dec : EqDecision pyval.
Proof. solve_decision. Defined.

Abbreviation dict := (gmap string pyval).

(** [p in s] on strings is the substring test. *)
Fixpoint is_substring (p s : string) : bool :=
  String.prefix p s ||
  match s with
  | EmptyString => false
  | String _ rest => is_substring p rest
  end.

(** [item in container] *)
Definition py_in (item : string) (container : pyval) : bool :=
  match container with
  | PList l => bool_decide (item ∈ l)
  | PStr s => is_substring item s
  end.

(** Truthiness of an optional dictionary: [None] and [{}] are falsy. *)
Definition dict_truthy (d : option dict) : bool :=
  match d with
  | Some m => negb (bool_decide (m = ∅))
  | None => false
  end.

(** [request.state]: the attributes the middleware sets; [None] stands for
    an attribute that was never set. *)
Record State : Type := {
  user : option dict;
  api_key : option string
}.

(** The part of a request the gate reads: the path, the headers in arrival
    order with lower-case names (as the ASGI server delivers them), and the
    per-request state. *)
Record Request : Type := {
  path : string;
  headers : list (string * string);
  state : State
}.

(** [request.headers.get(key)]: the lookup is case-insensitive and returns
    the first header of that name. *)
Definition headers_get (h : list (string * string)) (key : string) : option string :=
  snd <$> List.find (fun kv => bool_decide (fst kv = Py.lower key)) h.

Record Response : Type := JSONResponse {
  status_code : Z;
  content : dict
}.

Record HTTPException : Type := {
  exc_status_code : Z;
  exc_detail : string
}.

(** A call either returns or raises an [HTTPException]. *)
Inductive result (A : Type) : Type :=
  | Return (a : A)
  | Raise (e : HTTPException).
Arguments Return {A} a.
Arguments Raise {A} e.

Definition HTTP_401_UNAUTHORIZED : Z := 401.
Definition HTTP_403_FORBIDDEN : Z := 403.

(** A call that returns a value or raises an exception of type [E]. *)
Inductive outcome (E A : Type) : Type :=
  | Returned (a : A)
  | Raised (e : E).
Arguments Returned {E A} a.
Arguments Raised {E A} e.

(** An [HTTPException] together with its [headers] argument. *)
Record HTTPError : Type := {
  http_exception : HTTPException;
  http_headers : option (list (string * string))
}.

(** What [HTTPBearer] extracts from an [Authorization] header. *)
Record HTTPAuthorizationCredentials : Type := {
  scheme : string;
  credentials : string
}.

(** An exception raised while a route runs: an [HTTPException], or another
    subclass of [Exception] given by its class name and message. *)
Inductive exception : Type :=
  | HTTPExc (e : HTTPException)
  | PyExc (name message : string).

(** The values of the bodies built by the exception handlers. *)
Inductive jsonval : Type :=
  | JStr (s : string)
  | JInt (n : Z).

Record ErrorResponse : Type := {
  error_status_code : Z;
  error_content : gmap string jsonval
}.

(** ** [app/config.py] *)

Module config.

Record Settings : Type := {
  api_key_secret : string
}.

(** The value of the field when the environment does not set it. *)
Definition default_settings : Settings :=
  {| api_key_secret := "default_secret" |}.

Record ValueError : Type := { message : string }.

Definition valid_levels : list string :=
  ["DEBUG"; "INFO"; "WARNING"; "ERROR"; "CRITICAL"].

(** [Settings.validate_log_level], lines 79-84 *)
Definition validate_log_level (v : string) : outcome ValueError string :=
  if negb (bool_decide (Py.upper v ∈ valid_levels)) then
    Raised {| message :=
      "Log level must be one of ['DEBUG', 'INFO', 'WARNING', 'ERROR', 'CRITICAL']" |}
  else Returned (Py.upper v).

End config.

(** ** [app/auth/middleware.py] *)

Module APIKeyAuth.

(** [APIKeyAuth.verify_api_key], lines 35-49.  No statement of the [try]
    block raises on a string, so the [except] branch is never taken. *)
Definition verify_api_key (api_key : string) : bool :=
  if negb (Py.startswith api_key "mcp_") then false
  else (10 <? Py.len api_key)%Z.

(** [__call__], lines 24-33.  [super_call] is the outcome of the base
    class's [__call__]: the bearer credentials, [None], or an exception,
    which propagates. *)
Definition __call__
    (super_call : outcome HTTPError (option HTTPAuthorizationCredentials))
  : outcome HTTPError (option HTTPAuthorizationCredentials) :=
  match super_call with
  | Raised e => Raised e
  | Returned None => Returned None
  | Returned (Some c) =>
      if negb (verify_api_key (credentials c)) then
        Raised {| http_exception :=
                    {| exc_status_code := HTTP_401_UNAUTHORIZED;
                       exc_detail := "Invalid API key" |};
                  http_headers := Some [("WWW-Authenticate", "Bearer")] |}
      else Returned (Some c)
  end.

End APIKeyAuth.

Module AuthenticationMiddleware.

Record t : Type := {
  excluded_paths : list string
}.

(** [__init__], lines 55-63: [excluded_paths or [...]] keeps a non-empty
    list and replaces [None] and [[]] by the defaults. *)
Definition __init__ (excluded : option (list string)) : t :=
  {| excluded_paths :=
       match excluded with
       | Some (p :: ps) => p :: ps
       | _ => ["/health"; "/docs"; "/openapi.json"; "/redoc"]
       end |}.

(** [verify_api_key], lines 97-107 *)
Definition verify_api_key (api_key : string) : bool :=
  if negb (Py.startswith api_key "mcp_") then false
  else (10 <? Py.len api_key)%Z.

(** [get_user_from_api_key], lines 109-117 *)
Definition get_user_from_api_key (api_key : string) : dict :=
  <["user_id" := PStr "demo_user"]>
  (<["permissions" := PList ["viewer"; "moderator"]]>
  (<["tenant_id" := PStr "demo_tenant"]> ∅)).

(** Line 71: the credential as read from the headers. *)
Definition extract_api_key (request : Request) : option string :=
  Py.or_else (headers_get (headers request) "X-API-Key")
             (headers_get (headers request) "Authorization").

(** Lines 80-81: the handling of the bearer format. *)
Definition handle_bearer (api_key : string) : string :=
  if Py.startswith api_key "Bearer " then Py.replace api_key "Bearer " ""
  else api_key.

(** [dispatch], lines 65-95.  The result is the response together with the
    requests that were handed to [call_next], in order. *)
Definition dispatch (self : t) (call_next : Request → Response)
    (request : Request) : Response * list Request :=
  if bool_decide (path request ∈ excluded_paths self) then
    (call_next request, [request])
  else
    let api_key := extract_api_key request in
    if negb (Py.truthy api_key) then
      (JSONResponse HTTP_401_UNAUTHORIZED
                    {[ "detail" := PStr "API key required" ]}, [])
    else
      let api_key := handle_bearer (default EmptyString api_key) in
      if negb (verify_api_key api_key) then
        (JSONResponse HTTP_401_UNAUTHORIZED
                      {[ "detail" := PStr "Invalid API key" ]}, [])
      else
        let request :=
          {| path := path request;
             headers := headers request;
             state := {| user := Some (get_user_from_api_key api_key);
                         api_key := Some api_key |} |} in
        (call_next request, [request]).

End AuthenticationMiddleware.

(** [generate_api_key], lines 120-131 *)
Definition generate_api_key (user_id secret : string) : string :=
  let message := user_id +:+ ":" +:+ secret in
  let signature := hmac.hexdigest (Py.encode secret) (Py.encode message) in
  "mcp_" +:+ Py.slice_to 32 signature.

(** [validate_permissions], lines 134-136 *)
Definition validate_permissions (required_permissions : list string)
    (user_permissions : pyval) : bool :=
  existsb (fun perm => py_in perm user_permissions) required_permissions.

Module PermissionChecker.

Record t : Type := {
  required_permissions : list string
}.

(** [__call__], lines 145-160 *)
Definition __call__ (self : t) (request : Request) : result bool :=
  let user := user (state request) in
  if negb (dict_truthy user) then
    Raise {| exc_status_code := HTTP_401_UNAUTHORIZED;
             exc_detail := "Authentication required" |}
  else
    let user_permissions :=
      default (PList []) (default ∅ user !! "permissions") in
    if negb (validate_permissions (required_permissions self) user_permissions) then
      Raise {| exc_status_code := HTTP_403_FORBIDDEN;
               exc_detail := "Insufficient permissions" |}
    else Return true.

End PermissionChecker.

(** ** [app/main.py] *)

Module main.

(** The middleware as the application installs it, lines 82-85. *)
Definition auth_middleware : AuthenticationMiddleware.t :=
  AuthenticationMiddleware.__init__
    (Some ["/health"; "/docs"; "/openapi.json"; "/redoc"; "/generate-api-key"]).

(** [generate_api_key_endpoint], lines 139-153.  Nothing in the [try] block
    raises on strings, so the handler returns its dictionary. *)
Definition generate_api_key_endpoint (settings : config.Settings)
    (user_id : string) : result dict :=
  let api_key := generate_api_key user_id (config.api_key_secret settings) in
  Return (<["api_key" := PStr api_key]>
         (<["user_id" := PStr user_id]>
         (<["instructions" :=
              PStr "Use this API key in the X-API-Key header or Authorization header"]> ∅))).

(** What [call_mcp_tool] returns. *)
Record ToolCallResult (Value : Type) : Type := {
  tool : string;
  result_value : Value;
  calling_user : pyval
}.
Arguments tool {Value} _.
Arguments result_value {Value} _.
Arguments calling_user {Value} _.

(** [call_mcp_tool], lines 177-198.  [registry] is the outcome of reading
    the attribute [mcp._tools] on line 184: a dictionary from tool names to
    functions that return a value or raise an [Exception], or the
    exception raised when the object has no such attribute; [str_exc] is
    [str] on exceptions.  The first [user.get] is outside the [try] block;
    the attribute is read inside it, and the [except Exception] clause also
    catches the [HTTPException] raised there. *)
Definition call_mcp_tool {Params Value : Type}
    (str_exc : exception → string)
    (registry : outcome exception (gmap string (Params → outcome exception Value)))
    (request : Request) (tool_name : string) (parameters : Params)
  : outcome exception (ToolCallResult Value) :=
  match user (state request) with
  | None => Raised (PyExc "AttributeError" "'NoneType' object has no attribute 'get'")
  | Some user =>
      let attempt : outcome exception (ToolCallResult Value) :=
        match registry with
        | Raised e => Raised e
        | Returned tools =>
            match tools !! tool_name with
            | None =>
                Raised (HTTPExc {| exc_status_code := 404;
                                   exc_detail := "Tool '" +:+ tool_name +:+ "' not found" |})
            | Some tool_func =>
                match tool_func parameters with
                | Raised e => Raised e
                | Returned result =>
                    Returned {| tool := tool_name;
                                result_value := result;
                                calling_user :=
                                  default (PStr "unknown") (user !! "user_id") |}
                end
            end
        end in
      match attempt with
      | Returned response => Returned response
      | Raised e =>
          Raised (HTTPExc {| exc_status_code := 500;
                             exc_detail := "Tool execution failed: " +:+ str_exc e |})
      end
  end.

(** [http_exception_handler], lines 202-209 *)
Definition http_exception_handler (exc : HTTPException) : ErrorResponse :=
  {| error_status_code := exc_status_code exc;
     error_content :=
       <["error" := JStr (exc_detail exc)]>
       (<["status_code" := JInt (exc_status_code exc)]> ∅) |}.

(** [general_exception_handler], lines 212-219 *)
Definition general_exception_handler (exc : exception) : ErrorResponse :=
  {| error_status_code := 500;
     error_content :=
       <["error" := JStr "Internal server error"]>
       (<["status_code" := JInt 500]> ∅) |}.

(** The reply to an exception that leaves a route: the handler registered
    for [HTTPException] takes those, the one registered for [Exception]
    the others. *)
Definition exception_response (exc : exception) : ErrorResponse :=
  match exc with
  | HTTPExc e => http_exception_handler e
  | PyExc _ _ => general_exception_handler exc
  end.

End main.

(** ** Notions used in the statements *)

(** All characters of a string satisfy a test. *)
Fixpoint forall_chars (P : ascii → bool) (s : string) : bool :=
  match s with
  | EmptyString => true
  | String c rest => P c && forall_chars P rest
  end.

Definition is_lower_hex (c : ascii) : bool :=
  bool_decide (c ∈ list_ascii_of_string "0123456789abcdef").

(** A request as it reaches the gate: nothing attached to its state yet. *)
Definition fresh_state : State := {| user := None; api_key := None |}.

Definition with_user (request : Request) (principal : dict) : Request :=
  {| path := path request;
     headers := headers request;
     state := {| user := Some principal; api_key := api_key (state request) |} |}.

(** A downstream handler for the evaluations on concrete requests. *)
Definition ok_handler (request : Request) : Response :=
  JSONResponse 200 ∅.

(** The request handed downstream once a credential has been accepted. *)
Definition authenticated (request : Request) (token : string) : Request :=
  {| path := path request;
     headers := headers request;
     state := {| user := Some (AuthenticationMiddleware.get_user_from_api_key token);
                 api_key := Some token |} |}.

(** The identifier of the user attached to a request. *)
Definition attached_user_id (request : Request) : option pyval :=
  user (state request) ≫= λ principal, principal !! "user_id".

(** A token is well formed when it is the marker followed by at least seven
    more characters. *)
Definition well_formed (token : string) : Prop :=
  ∃ rest, token = "mcp_" +:+ rest ∧ 7 ≤ String.length rest.

Fixpoint drop_chars (n : nat) (s : string) : string :=
  match n, s with
  | S n', String _ rest => drop_chars n' rest
  | _, _ => s
  end.

(** Normalization as the specification words it: a leading ["Bearer "] is
    removed, nothing else is touched. *)
Definition strip_bearer_prefix (api_key : string) : string :=
  if Py.startswith api_key "Bearer " then drop_chars 7 api_key else api_key.

(** ** Test vectors for the library functions *)

Example round_constants_ends :
  nth 0 hashlib.round_constants 0%Z = 0x428a2f98%Z ∧
  nth 63 hashlib.round_constants 0%Z = 0xc67178f2%Z ∧
  hashlib.ra hashlib.initial_hash = 0x6a09e667%Z ∧
  hashlib.rh hashlib.initial_hash = 0x5be0cd19%Z.
Proof. repeat split; reflexivity. Qed.

Example sha256_empty :
  hashlib.hexlify (hashlib.sha256 (Py.encode "")) =
  "e3b0c44298fc1c149afbf4c8996fb92427ae41e4649b934ca495991b7852b855"%string.
Proof. vm_compute. reflexivity. Qed.

Example sha256_abc :
  hashlib.hexlify (hashlib.sha256 (Py.encode "abc")) =
  "ba7816bf8f01cfea414140de5dae2223b00361a396177a9cb410ff61f20015ad"%string.
Proof. vm_compute. reflexivity. Qed.

Example sha256_two_blocks :
  hashlib.hexlify (hashlib.sha256
    (Py.encode "abcdbcdecdefdefgefghfghighijhijkijkljklmklmnlmnomnopnopq")) =
  "248d6a61d20638b8e5c026930c3e6039a33ce45964ff2167f6ecedd419db06c1"%string.
Proof. vm_compute. reflexivity. Qed.

Example hmac_rfc4231_case2 :
  hmac.hexdigest (Py.encode "Jefe") (Py.encode "what do ya want for nothing?") =
  "5bdcc146bf60754e6a042426089575c75a003f089d2739839dec58b964ec3843"%string.
Proof. vm_compute. reflexivity. Qed.

Example hmac_rfc4231_case6 :
  hmac.hexdigest (repeat 0xaa%Z 131)
    (Py.encode "Test Using Larger Than Block-Size Key - Hash Key First") =
  "60e431591ee0b67f0d8a26aacbf5b77f8e0bc6213728c5140546040f0ee37f54"%string.
Proof. vm_compute. reflexivity. Qed.

Example generate_api_key_alice :
  generate_api_key "alice" "default_secret" = "mcp_d0ac87111ce58e65fe668210b03a1336"%string.
Proof. vm_compute. reflexivity. Qed.

Example generate_api_key_test_user :
  generate_api_key "test_user" "test_secret" = "mcp_7560c9d7d1306fa481b7095f808bc6a8"%string.
Proof. vm_compute. reflexivity. Qed.

Example replace_overlap : Py.replace "aaa" "aa" "b" = "ba"%string.
Proof. reflexivity. Qed.

Example replace_empty_old : Py.replace "abc" "" "-" = "-a-b-c-"%string.
Proof. reflexivity. Qed.

(** ** Strings: lengths, prefixes and slices *)

Section StringFacts.

Lemma length_append (s1 s2 : string) :
  String.length (s1 +:+ s2) = String.length s1 + String.length s2.
Proof. induction s1 as [|c s1 IH]; simpl; [reflexivity | now rewrite IH]. Qed.

Lemma prefix_append (p s : string) : String.prefix p (p +:+ s) = true.
Proof.
  induction p as [|c p IH]; simpl.
  - now destruct s.
  - destruct (ascii_dec c c); [exact IH | congruence].
Qed.

Lemma prefix_split (p s : string) :
  String.prefix p s = true → ∃ rest, s = p +:+ rest.
Proof.
  revert s. induction p as [|c p IH]; intros s H.
  - now exists s.
  - destruct s as [|d s]; simpl in H; [discriminate|].
    destruct (ascii_dec c d) as [->|]; [|discriminate].
    destruct (IH _ H) as [rest ->]. now exists rest.
Qed.

Lemma prefix_head_ne (a c : ascii) (p s : string) :
  a ≠ c → String.prefix (String a p) (String c s) = false.
Proof.
  intros Hne. cbn [String.prefix].
  destruct (ascii_dec a c); [contradiction | reflexivity].
Qed.

Lemma slice_to_length (n : nat) (s : string) :
  n ≤ String.length s → String.length (Py.slice_to n s) = n.
Proof.
  unfold Py.slice_to. revert s.
  induction n as [|n IH]; intros s H.
  - now destruct s.
  - destruct s as [|c s]; simpl in *; [lia|]. rewrite IH; lia.
Qed.

Lemma encode_append (s1 s2 : string) :
  Py.encode (s1 +:+ s2) = Py.encode s1 ++ Py.encode s2.
Proof. induction s1 as [|c s1 IH]; simpl; [reflexivity | now rewrite IH]. Qed.

End StringFacts.

(** ** The digest has thirty-two bytes, its rendering sixty-four digits *)

Section DigestFacts.

Lemma sha256_length (msg : list Z) : length (hashlib.sha256 msg) = 32.
Proof. reflexivity. Qed.

Lemma hmac_digest_length (key msg : list Z) : length (hmac.digest key msg) = 32.
Proof. apply sha256_length. Qed.

Lemma hexlify_length (bs : list Z) :
  String.length (hashlib.hexlify bs) = 2 * length bs.
Proof. induction bs as [|b bs IH]; simpl; [reflexivity | rewrite IH; lia]. Qed.

Lemma hexdigest_length (key msg : list Z) :
  String.length (hmac.hexdigest key msg) = 64.
Proof. unfold hmac.hexdigest. now rewrite hexlify_length, hmac_digest_length. Qed.

(** Slicing the rendering at an even position renders a prefix of the bytes. *)
Lemma slice_to_hexlify (n : nat) (bs : list Z) :
  Py.slice_to (2 * n) (hashlib.hexlify bs) = hashlib.hexlify (take n bs).
Proof.
  unfold Py.slice_to. revert bs.
  induction n as [|n IH]; intros bs.
  - simpl. now destruct (hashlib.hexlify bs).
  - destruct bs as [|b bs]; [reflexivity|].
    replace (2 * S n) with (S (S (2 * n))) by lia.
    simpl. f_equal. f_equal. apply IH.
Qed.

End DigestFacts.

(** ** The shape of an issued token *)

Section IssuedToken.

Lemma hex_digit_lower_hex (n : Z) : is_lower_hex (hashlib.hex_digit n) = true.
Proof.
  unfold is_lower_hex, hashlib.hex_digit.
  apply bool_decide_eq_true.
  destruct (nth_in_or_default (Z.to_nat n)
              (list_ascii_of_string "0123456789abcdef") "0"%char) as [H | ->].
  - now apply list_elem_of_In.
  - apply list_elem_of_In. simpl. tauto.
Qed.

Lemma hexlify_lower_hex (bs : list Z) :
  forall_chars is_lower_hex (hashlib.hexlify bs) = true.
Proof.
  induction bs as [|b bs IH]; [reflexivity|].
  cbn [hashlib.hexlify forall_chars].
  now rewrite !hex_digit_lower_hex, IH.
Qed.

Lemma generate_api_key_unfold (user_id secret : string) :
  generate_api_key user_id secret =
  "mcp_" +:+ hashlib.hexlify
    (take 16 (hmac.digest (Py.encode secret)
                          (Py.encode user_id ++ [58%Z] ++ Py.encode secret))).
Proof.
  unfold generate_api_key, hmac.hexdigest.
  rewrite !encode_append.
  change 32 with (2 * 16).
  now rewrite slice_to_hexlify.
Qed.

Lemma generate_api_key_length (user_id secret : string) :
  String.length (generate_api_key user_id secret) = 36.
Proof.
  rewrite generate_api_key_unfold, length_append, hexlify_length.
  rewrite length_take, hmac_digest_length. reflexivity.
Qed.

Lemma generate_api_key_marker (user_id secret : string) :
  String.prefix "mcp_" (generate_api_key user_id secret) = true.
Proof. rewrite generate_api_key_unfold. apply prefix_append. Qed.

Lemma middleware_accepts_issued_token (user_id secret : string) :
  AuthenticationMiddleware.verify_api_key (generate_api_key user_id secret) = true.
Proof.
  unfold AuthenticationMiddleware.verify_api_key, Py.startswith, Py.len.
  now rewrite generate_api_key_marker, generate_api_key_length.
Qed.

End IssuedToken.

(** ** Claims about issuance and the boolean verifiers *)

(** C7.  For every [user_id] and [secret], [generate_api_key] computes the
    HMAC-SHA256 of the message made of the identifier, a colon and the
    secret, keyed with the secret; the digest has 32 bytes, that is 64
    hexadecimal digits; the token is the marker ["mcp_"] followed by the
    first 32 digits of the hexadecimal digest, which render the first 16
    bytes of the digest in lower-case hexadecimal. *)
Theorem generate_api_key_algorithm (user_id secret : string) :
  let message := Py.encode user_id ++ [58%Z] ++ Py.encode secret in
  let mac := hmac.digest (Py.encode secret) message in
  let body := Py.slice_to 32 (hashlib.hexlify mac) in
  length mac = 32 ∧
  String.length (hashlib.hexlify mac) = 64 ∧
  generate_api_key user_id secret = "mcp_" +:+ body ∧
  body = hashlib.hexlify (take 16 mac) ∧
  String.length body = 32 ∧
  forall_chars is_lower_hex body = true.
Proof.
  intros message mac body.
  assert (Hbody : body = hashlib.hexlify (take 16 mac)).
  { unfold body. change 32 with (2 * 16). apply slice_to_hexlify. }
  split; [apply hmac_digest_length|].
  split; [apply (hexdigest_length (Py.encode secret) message)|].
  split; [rewrite Hbody; apply generate_api_key_unfold|].
  split; [exact Hbody|].
  split.
  - rewrite Hbody, hexlify_length, length_take.
    unfold mac. now rewrite hmac_digest_length.
  - rewrite Hbody. apply hexlify_lower_hex.
Qed.

(** C9.  The verifier of the bearer-auth class and the verifier of the
    middleware return the same boolean on every string. *)
Theorem verify_api_key_implementations_agree (api_key : string) :
  APIKeyAuth.verify_api_key api_key =
  AuthenticationMiddleware.verify_api_key api_key.
Proof.
  unfold APIKeyAuth.verify_api_key, AuthenticationMiddleware.verify_api_key.
  destruct (Py.startswith api_key "mcp_"); reflexivity.
Qed.

(** C10.  Every issued token, for every [user_id] (the empty one included)
    and every [secret], starts with ["mcp_"], has length 36, which is more
    than 10, and is accepted by both verifiers. *)
Theorem issued_token_verifies (user_id secret : string) :
  let token := generate_api_key user_id secret in
  Py.startswith token "mcp_" = true ∧
  Py.len token = 36%Z ∧
  (10 < Py.len token)%Z ∧
  APIKeyAuth.verify_api_key token = true ∧
  AuthenticationMiddleware.verify_api_key token = true.
Proof.
  intros token.
  assert (Hm : Py.startswith token "mcp_" = true)
    by apply generate_api_key_marker.
  assert (Hl : Py.len token = 36%Z).
  { unfold Py.len, token. now rewrite generate_api_key_length. }
  split; [exact Hm|]. split; [exact Hl|]. split; [lia|]. split.
  - unfold APIKeyAuth.verify_api_key. rewrite Hm, Hl. reflexivity.
  - unfold AuthenticationMiddleware.verify_api_key. rewrite Hm, Hl. reflexivity.
Qed.

(** ** Claims about permission evaluation *)

Section Permissions.

Lemma validate_permissions_true (required user_permissions : list string) :
  validate_permissions required (PList user_permissions) = true ↔
  ∃ perm, perm ∈ required ∧ perm ∈ user_permissions.
Proof.
  unfold validate_permissions. rewrite existsb_exists. split.
  - intros (perm & Hin & Hmem). exists perm. split.
    + now apply list_elem_of_In.
    + now apply bool_decide_eq_true in Hmem.
  - intros (perm & Hin & Hmem). exists perm. split.
    + now apply list_elem_of_In.
    + now apply bool_decide_eq_true.
Qed.

End Permissions.

(** C4.  On lists of permission labels [validate_permissions] returns
    [True] exactly when some label is in both lists, and [False] exactly
    when no required label is among the user's labels; a user holding only
    ["viewer"] is allowed where ["viewer"] or ["moderator"] is required and
    denied where only ["moderator"] is required. *)
Theorem validate_permissions_or_semantics :
  (∀ required user_permissions : list string,
     validate_permissions required (PList user_permissions) = true ↔
     ∃ perm, perm ∈ required ∧ perm ∈ user_permissions) ∧
  (∀ required user_permissions : list string,
     validate_permissions required (PList user_permissions) = false ↔
     ∀ perm, perm ∈ required → perm ∉ user_permissions) ∧
  validate_permissions ["viewer"; "moderator"] (PList ["viewer"]) = true ∧
  validate_permissions ["moderator"] (PList ["viewer"]) = false.
Proof.
  split; [exact validate_permissions_true|].
  split; [|split; reflexivity].
  intros required user_permissions.
  rewrite <- not_true_iff_false, validate_permissions_true. split.
  - intros Hno perm Hreq Huser. apply Hno. now exists perm.
  - intros Hall (perm & Hreq & Huser). exact (Hall perm Hreq Huser).
Qed.

(** C5.  [PermissionChecker] raises HTTP 401 when no user is attached to
    the request state (an empty dictionary counts as no user, by Python
    truthiness), raises HTTP 403 when a user is attached and
    [validate_permissions] fails on its permissions, and returns [True]
    when it succeeds; the two status codes differ. *)
Theorem permission_checker_unauthenticated_vs_forbidden
    (self : PermissionChecker.t) (request : Request) :
  (user (state request) = None ∨ user (state request) = Some ∅ →
   PermissionChecker.__call__ self request =
   Raise {| exc_status_code := 401; exc_detail := "Authentication required" |}) ∧
  (∀ principal : dict,
     user (state request) = Some principal → principal ≠ ∅ →
     validate_permissions (PermissionChecker.required_permissions self)
       (default (PList []) (principal !! "permissions")) = false →
     PermissionChecker.__call__ self request =
     Raise {| exc_status_code := 403; exc_detail := "Insufficient permissions" |}) ∧
  (∀ principal : dict,
     user (state request) = Some principal → principal ≠ ∅ →
     validate_permissions (PermissionChecker.required_permissions self)
       (default (PList []) (principal !! "permissions")) = true →
     PermissionChecker.__call__ self request = Return true) ∧
  HTTP_401_UNAUTHORIZED ≠ HTTP_403_FORBIDDEN.
Proof.
  unfold PermissionChecker.__call__.
  split; [|split; [|split]].
  - intros [-> | ->]; reflexivity.
  - intros principal -> Hne Hval. cbn [dict_truthy].
    rewrite bool_decide_eq_false_2 by exact Hne.
    change (default ∅ (Some principal)) with principal.
    cbn [negb]. rewrite Hval. reflexivity.
  - intros principal -> Hne Hval. cbn [dict_truthy].
    rewrite bool_decide_eq_false_2 by exact Hne.
    change (default ∅ (Some principal)) with principal.
    cbn [negb]. rewrite Hval. reflexivity.
  - discriminate.
Qed.

Lemma permission_checker_witness :
  let request := {| path := "/mcp/call-tool"; headers := []; state := fresh_state |} in
  let demo := AuthenticationMiddleware.get_user_from_api_key "mcp_0123456789" in
  PermissionChecker.__call__
    {| PermissionChecker.required_permissions := ["admin"] |} request =
  Raise {| exc_status_code := 401; exc_detail := "Authentication required" |} ∧
  PermissionChecker.__call__
    {| PermissionChecker.required_permissions := ["admin"] |}
    (with_user request demo) =
  Raise {| exc_status_code := 403; exc_detail := "Insufficient permissions" |} ∧
  PermissionChecker.__call__
    {| PermissionChecker.required_permissions := ["moderator"] |}
    (with_user request demo) = Return true.
Proof.
  intros request demo.
  assert (Hdemo : demo ≠ ∅).
  { intros E. apply (f_equal (λ m : dict, m !! "user_id")) in E.
    vm_compute in E. discriminate. }
  split; [|split].
  - apply (permission_checker_unauthenticated_vs_forbidden
             {| PermissionChecker.required_permissions := ["admin"] |} request).
    left. reflexivity.
  - apply (proj1 (proj2 (permission_checker_unauthenticated_vs_forbidden
             {| PermissionChecker.required_permissions := ["admin"] |}
             (with_user request demo))) demo);
      [reflexivity | exact Hdemo | vm_compute; reflexivity].
  - apply (proj1 (proj2 (proj2 (permission_checker_unauthenticated_vs_forbidden
             {| PermissionChecker.required_permissions := ["moderator"] |}
             (with_user request demo)))) demo);
      [reflexivity | exact Hdemo | vm_compute; reflexivity].
Defined.

(** ** The request gate *)

Section Dispatch.

Variable self : AuthenticationMiddleware.t.
Variable call_next : Request → Response.

Lemma dispatch_excluded (request : Request) :
  path request ∈ AuthenticationMiddleware.excluded_paths self →
  AuthenticationMiddleware.dispatch self call_next request =
  (call_next request, [request]).
Proof.
  intros Hin. unfold AuthenticationMiddleware.dispatch.
  now rewrite bool_decide_eq_true_2.
Qed.

Lemma dispatch_missing (request : Request) :
  path request ∉ AuthenticationMiddleware.excluded_paths self →
  Py.truthy (AuthenticationMiddleware.extract_api_key request) = false →
  AuthenticationMiddleware.dispatch self call_next request =
  (JSONResponse 401 {[ "detail" := PStr "API key required" ]}, []).
Proof.
  intros Hnot Hfalsy. unfold AuthenticationMiddleware.dispatch.
  rewrite bool_decide_eq_false_2 by exact Hnot.
  now rewrite Hfalsy.
Qed.

Lemma dispatch_invalid (request : Request) (credential : string) :
  path request ∉ AuthenticationMiddleware.excluded_paths self →
  AuthenticationMiddleware.extract_api_key request = Some credential →
  credential ≠ EmptyString →
  AuthenticationMiddleware.verify_api_key
    (AuthenticationMiddleware.handle_bearer credential) = false →
  AuthenticationMiddleware.dispatch self call_next request =
  (JSONResponse 401 {[ "detail" := PStr "Invalid API key" ]}, []).
Proof.
  intros Hnot Hcred Hne Hrej. unfold AuthenticationMiddleware.dispatch.
  rewrite bool_decide_eq_false_2 by exact Hnot.
  rewrite Hcred. destruct credential as [|c k]; [congruence|].
  change (default EmptyString (Some (String c k))) with (String c k).
  cbn [Py.truthy negb]. now rewrite Hrej.
Qed.

Lemma dispatch_accepted (request : Request) (credential : string) :
  path request ∉ AuthenticationMiddleware.excluded_paths self →
  AuthenticationMiddleware.extract_api_key request = Some credential →
  credential ≠ EmptyString →
  AuthenticationMiddleware.verify_api_key
    (AuthenticationMiddleware.handle_bearer credential) = true →
  AuthenticationMiddleware.dispatch self call_next request =
  (call_next (authenticated request (AuthenticationMiddleware.handle_bearer credential)),
   [authenticated request (AuthenticationMiddleware.handle_bearer credential)]).
Proof.
  intros Hnot Hcred Hne Hacc. unfold AuthenticationMiddleware.dispatch.
  rewrite bool_decide_eq_false_2 by exact Hnot.
  rewrite Hcred. destruct credential as [|c k]; [congruence|].
  change (default EmptyString (Some (String c k))) with (String c k).
  cbn [Py.truthy negb]. now rewrite Hacc.
Qed.

End Dispatch.

(** C3.  On a path outside the excluded list: when neither credential
    header is present the middleware answers 401 with
    [{"detail": "API key required"}] (a header with an empty value counts
    as missing); when a non-empty credential is present and the verifier
    rejects the normalized token it answers 401 with
    [{"detail": "Invalid API key"}]; in these cases [call_next] is not
    invoked. *)
Theorem protected_route_error_responses
    (self : AuthenticationMiddleware.t) (call_next : Request → Response)
    (request : Request) :
  path request ∉ AuthenticationMiddleware.excluded_paths self →
  (headers_get (headers request) "X-API-Key" = None →
   headers_get (headers request) "Authorization" = None →
   AuthenticationMiddleware.dispatch self call_next request =
   (JSONResponse 401 {[ "detail" := PStr "API key required" ]}, [])) ∧
  (AuthenticationMiddleware.extract_api_key request = Some EmptyString →
   AuthenticationMiddleware.dispatch self call_next request =
   (JSONResponse 401 {[ "detail" := PStr "API key required" ]}, [])) ∧
  (∀ credential : string,
     AuthenticationMiddleware.extract_api_key request = Some credential →
     credential ≠ EmptyString →
     AuthenticationMiddleware.verify_api_key
       (AuthenticationMiddleware.handle_bearer credential) = false →
     AuthenticationMiddleware.dispatch self call_next request =
     (JSONResponse 401 {[ "detail" := PStr "Invalid API key" ]}, [])).
Proof.
  intros Hnot. split; [|split].
  - intros Hx Ha. apply dispatch_missing; [exact Hnot|].
    unfold AuthenticationMiddleware.extract_api_key. now rewrite Hx, Ha.
  - intros Hempty. apply dispatch_missing; [exact Hnot|]. now rewrite Hempty.
  - intros credential. now apply dispatch_invalid.
Qed.

Lemma protected_route_error_responses_witness :
  AuthenticationMiddleware.dispatch main.auth_middleware ok_handler
    {| path := "/mcp/tools"; headers := []; state := fresh_state |} =
  (JSONResponse 401 {[ "detail" := PStr "API key required" ]}, []) ∧
  AuthenticationMiddleware.dispatch main.auth_middleware ok_handler
    {| path := "/mcp/tools"; headers := [("authorization", "garbage")];
       state := fresh_state |} =
  (JSONResponse 401 {[ "detail" := PStr "Invalid API key" ]}, []).
Proof.
  split.
  - apply (proj1 (protected_route_error_responses main.auth_middleware
             ok_handler
             {| path := "/mcp/tools"; headers := []; state := fresh_state |}
             ltac:(compute_done))); reflexivity.
  - apply (proj2 (proj2 (protected_route_error_responses main.auth_middleware
             ok_handler
             {| path := "/mcp/tools"; headers := [("authorization", "garbage")];
                state := fresh_state |} ltac:(compute_done))) "garbage");
      [reflexivity | discriminate | reflexivity].
Defined.

(** ** Handling of the bearer format *)

Section Bearer.

Lemma replace_from_absent (o : ascii) (old new s : string) :
  is_substring (String o old) s = false →
  Py.replace_from (String o old) new 0 s = s.
Proof.
  induction s as [|c s IH]; intros Habs; [reflexivity|].
  cbn [is_substring] in Habs. apply orb_false_iff in Habs as [Hpre Hrest].
  cbn [Py.replace_from]. rewrite Hpre. f_equal. exact (IH Hrest).
Qed.

Lemma replace_from_skip (old new s1 s2 : string) :
  Py.replace_from old new (String.length s1) (s1 +:+ s2) =
  Py.replace_from old new 0 s2.
Proof. induction s1 as [|c s1 IH]; [reflexivity | exact IH]. Qed.

Lemma replace_from_at_match (o : ascii) (old new rest : string) :
  Py.replace_from (String o old) new 0 (String o old +:+ rest) =
  new +:+ Py.replace_from (String o old) new 0 rest.
Proof.
  pose proof (prefix_append (String o old) rest) as Hpre.
  change (String o old +:+ rest) with (String o (old +:+ rest)) in Hpre |- *.
  unfold Py.replace_from at 1. fold Py.replace_from. rewrite Hpre.
  f_equal. cbn [String.length]. rewrite Nat.sub_succ, Nat.sub_0_r.
  apply replace_from_skip.
Qed.

(** Without a further occurrence in the remainder, the code removes the
    prefix and nothing else. *)
Lemma handle_bearer_prefix_only (rest : string) :
  is_substring "Bearer " rest = false →
  AuthenticationMiddleware.handle_bearer ("Bearer " +:+ rest) = rest ∧
  strip_bearer_prefix ("Bearer " +:+ rest) = rest.
Proof.
  intros Habs.
  pose proof (prefix_append "Bearer " rest) as Hpre.
  split.
  - unfold AuthenticationMiddleware.handle_bearer, Py.startswith.
    rewrite Hpre. unfold Py.replace.
    rewrite replace_from_at_match. now apply replace_from_absent.
  - unfold strip_bearer_prefix, Py.startswith. now rewrite Hpre.
Qed.

Lemma is_substring_head_ne (a c : ascii) (p s : string) :
  a ≠ c → is_substring (String a p) (String c s) = is_substring (String a p) s.
Proof.
  intros Hne. cbn [is_substring]. now rewrite prefix_head_ne.
Qed.

Lemma lower_hex_not_B (c : ascii) : is_lower_hex c = true → c ≠ "B"%char.
Proof.
  unfold is_lower_hex. intros H.
  apply bool_decide_eq_true in H. apply list_elem_of_In in H.
  simpl in H. intuition (subst; discriminate).
Qed.

Lemma lower_hex_no_bearer (s : string) :
  forall_chars is_lower_hex s = true → is_substring "Bearer " s = false.
Proof.
  induction s as [|c s IH]; intros Hhex; [reflexivity|].
  cbn [forall_chars] in Hhex. apply andb_true_iff in Hhex as [Hc Hs].
  cbn [is_substring]. rewrite (IH Hs), orb_false_r.
  apply prefix_head_ne. intros <-. now apply lower_hex_not_B in Hc.
Qed.

Lemma issued_token_no_bearer (user_id secret : string) :
  is_substring "Bearer " (generate_api_key user_id secret) = false.
Proof.
  rewrite generate_api_key_unfold.
  set (body := hashlib.hexlify _).
  assert (Hbody : is_substring "Bearer " body = false)
    by apply lower_hex_no_bearer, hexlify_lower_hex.
  revert Hbody. generalize body. intros b Hb.
  change ("mcp_" +:+ b)
    with (String "m" (String "c" (String "p" (String "_" b)))).
  rewrite !is_substring_head_ne by discriminate. exact Hb.
Qed.

Lemma handle_bearer_issued (user_id secret : string) :
  AuthenticationMiddleware.handle_bearer (generate_api_key user_id secret) =
  generate_api_key user_id secret.
Proof.
  rewrite generate_api_key_unfold. reflexivity.
Qed.

End Bearer.

Section Extraction.

Variable request : Request.

(** A non-empty [X-API-Key] header is the credential. *)
Lemma extract_api_key_custom_header (c : ascii) (k : string) :
  headers_get (headers request) "X-API-Key" = Some (String c k) →
  AuthenticationMiddleware.extract_api_key request = Some (String c k).
Proof.
  intros Hx. unfold AuthenticationMiddleware.extract_api_key. now rewrite Hx.
Qed.

(** Without one, the [Authorization] header is. *)
Lemma extract_api_key_authorization :
  Py.truthy (headers_get (headers request) "X-API-Key") = false →
  AuthenticationMiddleware.extract_api_key request =
  headers_get (headers request) "Authorization".
Proof.
  intros Hx. unfold AuthenticationMiddleware.extract_api_key, Py.or_else.
  now rewrite Hx.
Qed.

End Extraction.

(** C8.  The middleware reads the credential from [X-API-Key] or
    [Authorization], but it does not pass the prefix-stripped value to the
    verifier when ["Bearer "] occurs again inside the credential: for the
    header [Authorization: Bearer mcp_Bearer 123456] removing the prefix
    leaves ["mcp_Bearer 123456"], which the verifier accepts, whereas the
    code verifies ["mcp_123456"] and answers 401. *)
Theorem bearer_inner_occurrence_removed :
  let raw := "Bearer mcp_Bearer 123456"%string in
  let request := {| path := "/mcp/tools"; headers := [("authorization", raw)];
                    state := fresh_state |} in
  AuthenticationMiddleware.extract_api_key request = Some raw ∧
  strip_bearer_prefix raw = "mcp_Bearer 123456"%string ∧
  AuthenticationMiddleware.verify_api_key (strip_bearer_prefix raw) = true ∧
  AuthenticationMiddleware.handle_bearer raw = "mcp_123456"%string ∧
  AuthenticationMiddleware.verify_api_key
    (AuthenticationMiddleware.handle_bearer raw) = false ∧
  AuthenticationMiddleware.dispatch main.auth_middleware ok_handler request =
  (JSONResponse 401 {[ "detail" := PStr "Invalid API key" ]}, []).
Proof.
  intros raw request.
  assert (Hcode : AuthenticationMiddleware.handle_bearer raw = "mcp_123456"%string)
    by reflexivity.
  split; [reflexivity|]. split; [reflexivity|]. split; [reflexivity|].
  split; [exact Hcode|]. split; [reflexivity|].
  apply (dispatch_invalid main.auth_middleware ok_handler request raw);
    [compute_done | reflexivity | discriminate | reflexivity].
Qed.

(** ** Claims about verification and resolution *)

Section Verification.

Lemma verify_api_key_well_formed (token : string) :
  AuthenticationMiddleware.verify_api_key token = true ↔ well_formed token.
Proof.
  unfold AuthenticationMiddleware.verify_api_key, Py.startswith, Py.len, well_formed.
  split.
  - destruct (String.prefix "mcp_" token) eqn:Hpre; [|discriminate].
    cbn [negb]. intros Hlen. apply Z.ltb_lt in Hlen.
    destruct (prefix_split _ _ Hpre) as [rest ->].
    exists rest. split; [reflexivity|].
    rewrite length_append in Hlen. cbn [String.length] in Hlen. lia.
  - intros (rest & -> & Hlen). rewrite prefix_append. cbn [negb].
    apply Z.ltb_lt. rewrite length_append. cbn [String.length]. lia.
Qed.

Lemma mock_user_id (token : string) :
  AuthenticationMiddleware.get_user_from_api_key token !! "user_id" =
  Some (PStr "demo_user").
Proof. apply lookup_insert_eq. Qed.

End Verification.

(** X15.  On a protected path, presenting the token issued for any
    identifier and secret, in [X-API-Key] or as
    [Authorization: Bearer <token>], passes verification; the request is
    handed downstream once, with the issued token recorded as its key and
    the fixed demo user attached, whose identifier is ["demo_user"]
    whatever identifier the token was issued for.  The attached identifier
    is the issued one only for ["demo_user"]. *)
Theorem issued_token_resolves_to_demo_user
    (self : AuthenticationMiddleware.t) (call_next : Request → Response)
    (request : Request) (user_id secret : string) :
  let token := generate_api_key user_id secret in
  path request ∉ AuthenticationMiddleware.excluded_paths self →
  AuthenticationMiddleware.extract_api_key request = Some token ∨
  AuthenticationMiddleware.extract_api_key request = Some ("Bearer " +:+ token) →
  AuthenticationMiddleware.dispatch self call_next request =
    (call_next (authenticated request token), [authenticated request token]) ∧
  attached_user_id (authenticated request token) = Some (PStr "demo_user") ∧
  api_key (state (authenticated request token)) = Some token ∧
  (attached_user_id (authenticated request token) = Some (PStr user_id) ↔
   user_id = "demo_user"%string).
Proof.
  intros token Hnot Hcred.
  assert (Hid : attached_user_id (authenticated request token) =
                Some (PStr "demo_user")) by apply mock_user_id.
  assert (Hok : AuthenticationMiddleware.verify_api_key token = true)
    by apply (middleware_accepts_issued_token user_id secret).
  split; [|split; [exact Hid | split; [reflexivity|]]].
  - destruct Hcred as [Hcred | Hcred].
    + pose proof (handle_bearer_issued user_id secret) as Hnorm.
      fold token in Hnorm. rewrite <- Hnorm at 1 2.
      apply dispatch_accepted; [exact Hnot | exact Hcred | | now rewrite Hnorm].
      unfold token. rewrite generate_api_key_unfold. discriminate.
    + destruct (handle_bearer_prefix_only token
                  (issued_token_no_bearer user_id secret)) as [Hnorm _].
      rewrite <- Hnorm at 1 2.
      apply dispatch_accepted; [exact Hnot | exact Hcred | discriminate
                               | now rewrite Hnorm].
  - rewrite Hid. split; [congruence | now intros ->].
Qed.

Lemma issued_token_resolves_to_demo_user_witness :
  let token := generate_api_key "alice" "default_secret" in
  let request := {| path := "/mcp/tools";
                    headers := [("authorization", "Bearer " +:+ token)];
                    state := fresh_state |} in
  AuthenticationMiddleware.dispatch main.auth_middleware ok_handler request =
    (ok_handler (authenticated request token), [authenticated request token]) ∧
  attached_user_id (authenticated request token) = Some (PStr "demo_user").
Proof.
  intros token request.
  destruct (issued_token_resolves_to_demo_user main.auth_middleware ok_handler
              request "alice" "default_secret"
              ltac:(compute_done) (or_intror eq_refl)) as (Hd & Hid & _).
  split; [exact Hd | exact Hid].
Defined.

(** The token issued for ["alice"] with the default secret, presented in
    [X-API-Key], is forwarded with the identifier ["demo_user"]. *)
Lemma issued_for_alice_resolves_to_demo_user :
  let token := generate_api_key "alice" "default_secret" in
  let request := {| path := "/mcp/tools"; headers := [("x-api-key", token)];
                    state := fresh_state |} in
  token = "mcp_d0ac87111ce58e65fe668210b03a1336"%string ∧
  snd (AuthenticationMiddleware.dispatch main.auth_middleware ok_handler request) =
    [authenticated request token] ∧
  attached_user_id (authenticated request token) = Some (PStr "demo_user") ∧
  attached_user_id (authenticated request token) ≠ Some (PStr "alice").
Proof.
  intros token request.
  assert (Hid : attached_user_id (authenticated request token) =
                Some (PStr "demo_user")) by apply mock_user_id.
  split; [vm_compute; reflexivity|].
  split; [vm_compute; reflexivity|].
  split; [exact Hid|]. rewrite Hid. discriminate.
Qed.

(** C2, as the code has it.  Both verifiers return [True] exactly on the
    well-formed tokens, the marker ["mcp_"] followed by at least seven
    more characters, issued or not, and [False] on every other token.  On
    a protected path, when the credential read from the headers (empty if
    there is none) is, after the middleware's bearer handling, not well
    formed, the request is answered 401 and [call_next] is not called, so
    no user is resolved; the body is [{"detail": "Invalid API key"}] when
    the credential is non-empty and [{"detail": "API key required"}]
    otherwise. *)
Theorem ill_formed_token_rejected (token : string) :
  (APIKeyAuth.verify_api_key token = true ↔ well_formed token) ∧
  (AuthenticationMiddleware.verify_api_key token = true ↔ well_formed token) ∧
  (¬ well_formed token →
   APIKeyAuth.verify_api_key token = false ∧
   AuthenticationMiddleware.verify_api_key token = false) ∧
  (∀ (self : AuthenticationMiddleware.t) (call_next : Request → Response)
     (request : Request),
     path request ∉ AuthenticationMiddleware.excluded_paths self →
     AuthenticationMiddleware.handle_bearer
       (default EmptyString (AuthenticationMiddleware.extract_api_key request)) = token →
     ¬ well_formed token →
     AuthenticationMiddleware.dispatch self call_next request =
     (JSONResponse 401
        {[ "detail" :=
             PStr (if Py.truthy (AuthenticationMiddleware.extract_api_key request)
                   then "Invalid API key" else "API key required") ]}, [])).
Proof.
  split; [exact (verify_api_key_well_formed token)|].
  split; [exact (verify_api_key_well_formed token)|].
  assert (Hrej : ¬ well_formed token →
                 AuthenticationMiddleware.verify_api_key token = false).
  { intros Hill. apply not_true_iff_false. now rewrite verify_api_key_well_formed. }
  split.
  - intros Hill. split; exact (Hrej Hill).
  - intros self call_next request Hnot Hnorm Hill.
    destruct (AuthenticationMiddleware.extract_api_key request)
      as [[|c k]|] eqn:Hcred; cbn [Py.truthy].
    + apply dispatch_missing; [exact Hnot | now rewrite Hcred].
    + apply (dispatch_invalid self call_next request (String c k));
        [exact Hnot | exact Hcred | discriminate|].
      cbn [default from_option id] in Hnorm. rewrite Hnorm. exact (Hrej Hill).
    + apply dispatch_missing; [exact Hnot | now rewrite Hcred].
Qed.

Lemma ill_formed_token_rejected_witness :
  ¬ well_formed "garbage" ∧
  AuthenticationMiddleware.verify_api_key "garbage" = false ∧
  AuthenticationMiddleware.dispatch main.auth_middleware ok_handler
    {| path := "/mcp/tools"; headers := [("authorization", "Bearer garbage")];
       state := fresh_state |} =
  (JSONResponse 401 {[ "detail" := PStr "Invalid API key" ]}, []).
Proof.
  assert (Hill : ¬ well_formed "garbage").
  { intros (rest & E & _). discriminate E. }
  split; [exact Hill|].
  destruct (ill_formed_token_rejected "garbage") as (_ & _ & Hrej & Hgate).
  split; [exact (proj2 (Hrej Hill))|].
  apply (Hgate main.auth_middleware ok_handler
           {| path := "/mcp/tools"; headers := [("authorization", "Bearer garbage")];
              state := fresh_state |});
    [compute_done | reflexivity | exact Hill].
Defined.

(** C2 as stated fails: ["mcp_0000000"] is no issued token, since issued
    tokens have 36 characters, yet both verifiers accept it and the
    middleware attaches the demo user. *)
Lemma forged_token_counterexample :
  let forged := "mcp_0000000"%string in
  let request := {| path := "/mcp/tools"; headers := [("x-api-key", forged)];
                    state := fresh_state |} in
  (∀ user_id secret : string, generate_api_key user_id secret ≠ forged) ∧
  APIKeyAuth.verify_api_key forged = true ∧
  AuthenticationMiddleware.verify_api_key forged = true ∧
  snd (AuthenticationMiddleware.dispatch main.auth_middleware ok_handler request) =
    [authenticated request forged] ∧
  attached_user_id (authenticated request forged) = Some (PStr "demo_user").
Proof.
  intros forged request.
  split.
  - intros user_id secret E.
    apply (f_equal String.length) in E.
    rewrite generate_api_key_length in E. discriminate E.
  - split; [reflexivity|]. split; [reflexivity|].
    split; [vm_compute; reflexivity | apply mock_user_id].
Qed.

(** ** Claims about issuance requests *)

(** C6, as the code has it.  With an empty identifier issuance does not
    fail: [generate_api_key] returns a token of the usual form, the marker
    followed by 32 hexadecimal digits of the HMAC of [":" + secret], and
    the endpoint returns its dictionary with that token and the empty
    identifier; it never raises. *)
Theorem empty_identifier_is_issued (settings : config.Settings) :
  let secret := config.api_key_secret settings in
  let token := generate_api_key "" secret in
  token = "mcp_" +:+ hashlib.hexlify
            (take 16 (hmac.digest (Py.encode secret) (58%Z :: Py.encode secret))) ∧
  String.length token = 36 ∧
  AuthenticationMiddleware.verify_api_key token = true ∧
  (∃ body : dict,
     main.generate_api_key_endpoint settings "" = Return body ∧
     body !! "api_key" = Some (PStr token) ∧
     body !! "user_id" = Some (PStr "")) ∧
  (∀ user_id : string, ∃ body : dict,
     main.generate_api_key_endpoint settings user_id = Return body).
Proof.
  intros secret token.
  split; [apply (generate_api_key_unfold "" secret)|].
  split; [apply generate_api_key_length|].
  split; [apply middleware_accepts_issued_token|].
  split.
  - eexists. split; [reflexivity|]. split.
    + apply lookup_insert_eq.
    + rewrite lookup_insert_ne by discriminate. apply lookup_insert_eq.
  - intros user_id. eexists. reflexivity.
Qed.

(** C6 as stated fails: with the default secret the empty identifier is
    issued a token and the endpoint returns it. *)
Lemma empty_identifier_counterexample :
  generate_api_key "" "default_secret" =
    "mcp_c74a0d7a1f3e348f4b4aace3675fef1c"%string ∧
  main.generate_api_key_endpoint config.default_settings "" =
    Return (<["api_key" := PStr "mcp_c74a0d7a1f3e348f4b4aace3675fef1c"]>
           (<["user_id" := PStr ""]>
           (<["instructions" :=
                PStr "Use this API key in the X-API-Key header or Authorization header"]> ∅))).
Proof.
  assert (Htok : generate_api_key "" "default_secret" =
                 "mcp_c74a0d7a1f3e348f4b4aace3675fef1c"%string)
    by (vm_compute; reflexivity).
  split; [exact Htok|].
  unfold main.generate_api_key_endpoint, config.default_settings.
  cbn [config.api_key_secret]. now rewrite Htok.
Qed.

(** * Further properties of the gate *)

Section GateCases.

Variable self : AuthenticationMiddleware.t.
Variable call_next : Request → Response.

(** The three ways a protected request can go. *)
Lemma dispatch_protected_cases (request : Request) :
  path request ∉ AuthenticationMiddleware.excluded_paths self →
  (Py.truthy (AuthenticationMiddleware.extract_api_key request) = false ∧
   AuthenticationMiddleware.dispatch self call_next request =
   (JSONResponse 401 {[ "detail" := PStr "API key required" ]}, [])) ∨
  (∃ credential : string,
     AuthenticationMiddleware.extract_api_key request = Some credential ∧
     credential ≠ EmptyString ∧
     AuthenticationMiddleware.verify_api_key
       (AuthenticationMiddleware.handle_bearer credential) = false ∧
     AuthenticationMiddleware.dispatch self call_next request =
     (JSONResponse 401 {[ "detail" := PStr "Invalid API key" ]}, [])) ∨
  (∃ credential : string,
     AuthenticationMiddleware.extract_api_key request = Some credential ∧
     credential ≠ EmptyString ∧
     AuthenticationMiddleware.verify_api_key
       (AuthenticationMiddleware.handle_bearer credential) = true ∧
     AuthenticationMiddleware.dispatch self call_next request =
     (call_next (authenticated request
                   (AuthenticationMiddleware.handle_bearer credential)),
      [authenticated request
         (AuthenticationMiddleware.handle_bearer credential)])).
Proof.
  intros Hnot.
  destruct (AuthenticationMiddleware.extract_api_key request)
    as [[|c k]|] eqn:Hcred.
  - left. split; [reflexivity|]. apply dispatch_missing; [exact Hnot|].
    now rewrite Hcred.
  - destruct (AuthenticationMiddleware.verify_api_key
                (AuthenticationMiddleware.handle_bearer (String c k))) eqn:Hv.
    + right. right. exists (String c k).
      split; [reflexivity|]. split; [discriminate|]. split; [exact Hv|].
      now apply (dispatch_accepted self call_next request (String c k)).
    + right. left. exists (String c k).
      split; [reflexivity|]. split; [discriminate|]. split; [exact Hv|].
      now apply (dispatch_invalid self call_next request (String c k)).
  - left. split; [reflexivity|]. apply dispatch_missing; [exact Hnot|].
    now rewrite Hcred.
Qed.

End GateCases.

(** X1.  Whatever the request, the gate either answers 401 itself, with one
    of its two bodies and without calling the downstream handler, or calls
    the downstream handler exactly once and returns its response unchanged.
    The handler is called exactly when the path is excluded or a non-empty
    credential passes the verifier after bearer handling. *)
Theorem gate_outcomes
    (self : AuthenticationMiddleware.t) (call_next : Request → Response)
    (request : Request) :
  let out := AuthenticationMiddleware.dispatch self call_next request in
  ((snd out = [] ∧
    (fst out = JSONResponse 401 {[ "detail" := PStr "API key required" ]} ∨
     fst out = JSONResponse 401 {[ "detail" := PStr "Invalid API key" ]})) ∨
   (∃ forwarded : Request, out = (call_next forwarded, [forwarded]))) ∧
  (snd out ≠ [] ↔
   path request ∈ AuthenticationMiddleware.excluded_paths self ∨
   ∃ credential : string,
     AuthenticationMiddleware.extract_api_key request = Some credential ∧
     credential ≠ EmptyString ∧
     AuthenticationMiddleware.verify_api_key
       (AuthenticationMiddleware.handle_bearer credential) = true).
Proof.
  intros out. unfold out.
  destruct (decide (path request ∈ AuthenticationMiddleware.excluded_paths self))
    as [Hin | Hnot].
  - rewrite (dispatch_excluded self call_next request Hin). cbn [fst snd].
    split.
    + right. now exists request.
    + split; [now left | discriminate].
  - destruct (dispatch_protected_cases self call_next request Hnot)
      as [[Hfalsy ->] | [(cred & Hc & Hne & Hv & ->) | (cred & Hc & Hne & Hv & ->)]];
      cbn [fst snd].
    + split; [left; split; [reflexivity | now left]|].
      split; [congruence|].
      intros [Hin | (cred & Hc & Hne & _)]; [contradiction|].
      rewrite Hc in Hfalsy. destruct cred; [congruence | discriminate].
    + split; [left; split; [reflexivity | now right]|].
      split; [congruence|].
      intros [Hin | (cred' & Hc' & _ & Hv')]; [contradiction|].
      rewrite Hc in Hc'. injection Hc' as <-. congruence.
    + split; [right; now eexists|].
      split; [|discriminate].
      intros _. right. now exists cred.
Qed.

(** X2.  Every request the gate hands downstream on a protected path has
    the path and headers it came with, the demo user attached, with the
    labels [viewer] and [moderator], and a well-formed key recorded in its
    state. *)
Theorem forwarded_request_invariant
    (self : AuthenticationMiddleware.t) (call_next : Request → Response)
    (request forwarded : Request) :
  path request ∉ AuthenticationMiddleware.excluded_paths self →
  forwarded ∈ snd (AuthenticationMiddleware.dispatch self call_next request) →
  path forwarded = path request ∧
  headers forwarded = headers request ∧
  ∃ (key : string) (principal : dict),
    api_key (state forwarded) = Some key ∧ well_formed key ∧
    user (state forwarded) = Some principal ∧
    principal !! "user_id" = Some (PStr "demo_user") ∧
    principal !! "permissions" = Some (PList ["viewer"; "moderator"]) ∧
    principal !! "tenant_id" = Some (PStr "demo_tenant").
Proof.
  intros Hnot Hfw.
  destruct (dispatch_protected_cases self call_next request Hnot)
    as [[_ E] | [(cred & _ & _ & _ & E) | (cred & Hc & Hne & Hv & E)]];
    rewrite E in Hfw; cbn [snd] in Hfw.
  - now apply elem_of_nil in Hfw.
  - now apply elem_of_nil in Hfw.
  - apply list_elem_of_singleton in Hfw. subst forwarded.
    split; [reflexivity|]. split; [reflexivity|].
    exists (AuthenticationMiddleware.handle_bearer cred),
           (AuthenticationMiddleware.get_user_from_api_key
              (AuthenticationMiddleware.handle_bearer cred)).
    split; [reflexivity|].
    split; [now apply verify_api_key_well_formed|].
    split; [reflexivity|].
    split; [apply mock_user_id|].
    unfold AuthenticationMiddleware.get_user_from_api_key.
    split.
    + rewrite lookup_insert_ne by discriminate. apply lookup_insert_eq.
    + rewrite !lookup_insert_ne by discriminate. apply lookup_insert_eq.
Qed.

Lemma forwarded_request_invariant_witness :
  let request := {| path := "/mcp/tools";
                    headers := [("x-api-key", "mcp_0123456789")];
                    state := fresh_state |} in
  let forwarded := authenticated request "mcp_0123456789" in
  path forwarded = "/mcp/tools"%string ∧
  headers forwarded = [("x-api-key", "mcp_0123456789")]%string ∧
  ∃ (key : string) (principal : dict),
    api_key (state forwarded) = Some key ∧ well_formed key ∧
    user (state forwarded) = Some principal ∧
    principal !! "user_id" = Some (PStr "demo_user") ∧
    principal !! "permissions" = Some (PList ["viewer"; "moderator"]) ∧
    principal !! "tenant_id" = Some (PStr "demo_tenant").
Proof.
  intros request forwarded.
  apply (forwarded_request_invariant main.auth_middleware ok_handler
           request forwarded).
  - compute_done.
  - apply list_elem_of_singleton. reflexivity.
Defined.

(** X3.  A non-empty [X-API-Key] header decides alone: the [Authorization]
    header is not consulted, so the request is refused when that key is
    rejected and forwarded with that key when it is accepted, whatever
    [Authorization] carries. *)
Theorem x_api_key_takes_precedence
    (self : AuthenticationMiddleware.t) (call_next : Request → Response)
    (request : Request) (c : ascii) (k : string) :
  path request ∉ AuthenticationMiddleware.excluded_paths self →
  headers_get (headers request) "X-API-Key" = Some (String c k) →
  let key := AuthenticationMiddleware.handle_bearer (String c k) in
  (AuthenticationMiddleware.verify_api_key key = false →
   AuthenticationMiddleware.dispatch self call_next request =
   (JSONResponse 401 {[ "detail" := PStr "Invalid API key" ]}, [])) ∧
  (AuthenticationMiddleware.verify_api_key key = true →
   AuthenticationMiddleware.dispatch self call_next request =
   (call_next (authenticated request key), [authenticated request key])).
Proof.
  intros Hnot Hx key.
  pose proof (extract_api_key_custom_header request c k Hx) as Hcred.
  split; intros Hv.
  - now apply (dispatch_invalid self call_next request (String c k)).
  - now apply (dispatch_accepted self call_next request (String c k)).
Qed.

Lemma x_api_key_takes_precedence_witness :
  AuthenticationMiddleware.dispatch main.auth_middleware ok_handler
    {| path := "/mcp/tools";
       headers := [("authorization", "Bearer mcp_0123456789");
                   ("x-api-key", "garbage")];
       state := fresh_state |} =
  (JSONResponse 401 {[ "detail" := PStr "Invalid API key" ]}, []).
Proof.
  apply (proj1 (x_api_key_takes_precedence main.auth_middleware ok_handler
           {| path := "/mcp/tools";
              headers := [("authorization", "Bearer mcp_0123456789");
                          ("x-api-key", "garbage")];
              state := fresh_state |} "g" "arbage"
           ltac:(compute_done) eq_refl)).
  reflexivity.
Defined.

Section BearerLengths.

Lemma replace_from_erase_length (old s : string) (skip : nat) :
  String.length (Py.replace_from old "" skip s) ≤ String.length s.
Proof.
  revert skip. induction s as [|c s IH]; intros skip; [reflexivity|].
  cbn [Py.replace_from]. destruct skip as [|skip].
  - destruct (String.prefix old (String c s)).
    + rewrite length_append. cbn [String.length].
      specialize (IH (String.length old - 1)). lia.
    + cbn [String.length]. specialize (IH 0). lia.
  - cbn [String.length]. specialize (IH skip). lia.
Qed.

Lemma replace_from_erase_shorter (o : ascii) (old s : string) :
  is_substring (String o old) s = true →
  String.length (Py.replace_from (String o old) "" 0 s) < String.length s.
Proof.
  induction s as [|c s IH]; intros Hocc; [discriminate|].
  cbn [is_substring] in Hocc. cbn [Py.replace_from].
  destruct (String.prefix (String o old) (String c s)) eqn:Hpre.
  - rewrite length_append. cbn [String.length].
    pose proof (replace_from_erase_length (String o old) s
                  (S (String.length old) - 1)). lia.
  - cbn [orb] in Hocc. cbn [String.length]. specialize (IH Hocc). lia.
Qed.

End BearerLengths.

(** X4.  For a credential ["Bearer " + rest] the code hands [rest] to the
    verifier exactly when ["Bearer "] does not occur in [rest]; when it
    does, what is verified is strictly shorter than [rest]. *)
Theorem handle_bearer_exact_iff (rest : string) :
  (AuthenticationMiddleware.handle_bearer ("Bearer " +:+ rest) = rest ↔
   is_substring "Bearer " rest = false) ∧
  (is_substring "Bearer " rest = true →
   String.length (AuthenticationMiddleware.handle_bearer ("Bearer " +:+ rest))
   < String.length rest).
Proof.
  assert (Hcode : AuthenticationMiddleware.handle_bearer ("Bearer " +:+ rest) =
                  Py.replace_from "Bearer " "" 0 rest).
  { unfold AuthenticationMiddleware.handle_bearer, Py.startswith.
    rewrite prefix_append. unfold Py.replace.
    now rewrite replace_from_at_match. }
  rewrite Hcode. split; [split|].
  - intros Heq. destruct (is_substring "Bearer " rest) eqn:Hocc; [|reflexivity].
    pose proof (replace_from_erase_shorter _ _ _ Hocc) as Hlt.
    rewrite Heq in Hlt. lia.
  - apply replace_from_absent.
  - apply replace_from_erase_shorter.
Qed.

Lemma handle_bearer_exact_iff_witness :
  String.length (AuthenticationMiddleware.handle_bearer
                   ("Bearer " +:+ "mcp_Bearer 123456")) < 17.
Proof.
  apply (proj2 (handle_bearer_exact_iff "mcp_Bearer 123456")). reflexivity.
Defined.

(** X5.  The verifiers accept every extension of an accepted token; so an
    issued token followed by any non-empty suffix is accepted although no
    identifier and secret issue it. *)
Theorem extended_token_verifies (token suffix : string) :
  AuthenticationMiddleware.verify_api_key token = true →
  AuthenticationMiddleware.verify_api_key (token +:+ suffix) = true ∧
  APIKeyAuth.verify_api_key (token +:+ suffix) = true ∧
  (suffix ≠ EmptyString →
   (∃ user_id secret : string, token = generate_api_key user_id secret) →
   ∀ user_id secret : string, generate_api_key user_id secret ≠ token +:+ suffix).
Proof.
  intros Hv.
  assert (Hext : AuthenticationMiddleware.verify_api_key (token +:+ suffix) = true).
  { apply verify_api_key_well_formed.
    apply verify_api_key_well_formed in Hv as (rest & -> & Hlen).
    exists (rest +:+ suffix). split.
    - reflexivity.
    - rewrite length_append. lia. }
  split; [exact Hext|]. split.
  - exact Hext.
  - intros Hne (u0 & s0 & ->) user_id secret E.
    apply (f_equal String.length) in E.
    rewrite length_append, !generate_api_key_length in E.
    destruct suffix; [congruence | cbn [String.length] in E; lia].
Qed.

Lemma extended_token_verifies_witness :
  let token := generate_api_key "alice" "default_secret" in
  AuthenticationMiddleware.verify_api_key (token +:+ "x") = true ∧
  ∀ user_id secret : string, generate_api_key user_id secret ≠ token +:+ "x".
Proof.
  intros token.
  destruct (extended_token_verifies token "x"
              (middleware_accepts_issued_token "alice" "default_secret"))
    as (Hm & _ & Hfresh).
  split; [exact Hm|].
  apply Hfresh; [discriminate|]. now exists "alice"%string, "default_secret"%string.
Defined.

(** ** The permission checker behind the gate *)

Section CheckerFacts.

Lemma checker_with_user (self : PermissionChecker.t) (request : Request)
    (principal : dict) :
  user (state request) = Some principal → principal ≠ ∅ →
  PermissionChecker.__call__ self request =
  if validate_permissions (PermissionChecker.required_permissions self)
       (default (PList []) (principal !! "permissions"))
  then Return true
  else Raise {| exc_status_code := 403; exc_detail := "Insufficient permissions" |}.
Proof.
  intros Hu Hne. unfold PermissionChecker.__call__. rewrite Hu.
  cbn [dict_truthy]. rewrite bool_decide_eq_false_2 by exact Hne.
  change (default ∅ (Some principal)) with principal. cbn [negb].
  now destruct (validate_permissions _ _).
Qed.

Lemma demo_user_nonempty (token : string) :
  AuthenticationMiddleware.get_user_from_api_key token ≠ ∅.
Proof.
  intros E. pose proof (mock_user_id token) as Hid.
  rewrite E in Hid. now rewrite lookup_empty in Hid.
Qed.

Lemma demo_user_permissions (token : string) :
  AuthenticationMiddleware.get_user_from_api_key token !! "permissions" =
  Some (PList ["viewer"; "moderator"]).
Proof.
  unfold AuthenticationMiddleware.get_user_from_api_key.
  rewrite lookup_insert_ne by discriminate. apply lookup_insert_eq.
Qed.

End CheckerFacts.

(** X6.  On a request the gate has handed downstream on a protected path,
    the permission checker never answers 401: it returns [True] exactly
    when [viewer] or [moderator] is among the required labels, and raises
    403 otherwise, whatever credential was presented. *)
Theorem checker_behind_gate
    (self : AuthenticationMiddleware.t) (call_next : Request → Response)
    (request forwarded : Request) (checker : PermissionChecker.t) :
  path request ∉ AuthenticationMiddleware.excluded_paths self →
  forwarded ∈ snd (AuthenticationMiddleware.dispatch self call_next request) →
  let required := PermissionChecker.required_permissions checker in
  (PermissionChecker.__call__ checker forwarded = Return true ↔
   "viewer"%string ∈ required ∨ "moderator"%string ∈ required) ∧
  (¬ ("viewer"%string ∈ required ∨ "moderator"%string ∈ required) →
   PermissionChecker.__call__ checker forwarded =
   Raise {| exc_status_code := 403; exc_detail := "Insufficient permissions" |}) ∧
  PermissionChecker.__call__ checker forwarded ≠
  Raise {| exc_status_code := 401; exc_detail := "Authentication required" |}.
Proof.
  intros Hnot Hfw required.
  assert (Hshape : ∃ key, forwarded = authenticated request key).
  { destruct (dispatch_protected_cases self call_next request Hnot)
      as [[_ E] | [(cred & _ & _ & _ & E) | (cred & _ & _ & _ & E)]];
      rewrite E in Hfw; cbn [snd] in Hfw.
    - now apply elem_of_nil in Hfw.
    - now apply elem_of_nil in Hfw.
    - apply list_elem_of_singleton in Hfw.
      now exists (AuthenticationMiddleware.handle_bearer cred). }
  destruct Hshape as [key ->].
  rewrite (checker_with_user checker (authenticated request key)
             (AuthenticationMiddleware.get_user_from_api_key key)
             eq_refl (demo_user_nonempty key)).
  rewrite demo_user_permissions. cbn [default from_option id].
  fold required.
  assert (Hiff : validate_permissions required (PList ["viewer"; "moderator"]) = true ↔
                 "viewer"%string ∈ required ∨ "moderator"%string ∈ required).
  { rewrite validate_permissions_true. split.
    - intros (perm & Hreq & Hmem).
      apply elem_of_cons in Hmem as [-> | Hmem]; [now left|].
      apply list_elem_of_singleton in Hmem as ->. now right.
    - intros [H | H]; [exists "viewer"%string | exists "moderator"%string];
        (split; [exact H|]).
      + apply elem_of_cons. now left.
      + apply elem_of_cons. right. now apply list_elem_of_singleton. }
  destruct (validate_permissions required (PList ["viewer"; "moderator"])) eqn:Hv.
  - split; [|split]; [| |discriminate].
    + split; [intros _; now apply Hiff | reflexivity].
    + intros Hno. exfalso. apply Hno. now apply Hiff.
  - split; [|split]; [| |discriminate].
    + split; [discriminate|]. intros H. apply Hiff in H. discriminate.
    + reflexivity.
Qed.

Lemma checker_behind_gate_witness :
  let request := {| path := "/mcp/call-tool";
                    headers := [("x-api-key", "mcp_0123456789")];
                    state := fresh_state |} in
  PermissionChecker.__call__
    {| PermissionChecker.required_permissions := ["admin"; "moderator"] |}
    (authenticated request "mcp_0123456789") = Return true.
Proof.
  intros request.
  apply (proj1 (checker_behind_gate main.auth_middleware ok_handler request
           (authenticated request "mcp_0123456789")
           {| PermissionChecker.required_permissions := ["admin"; "moderator"] |}
           ltac:(compute_done)
           ltac:(apply list_elem_of_singleton; reflexivity))).
  right. compute_done.
Defined.

(** X7.  An attached user is refused with 403 whenever the checker requires
    no label at all, and whenever the user's dictionary has no
    ["permissions"] entry or an empty one, whatever is required. *)
Theorem checker_denies_without_labels
    (self : PermissionChecker.t) (request : Request) (principal : dict) :
  user (state request) = Some principal → principal ≠ ∅ →
  PermissionChecker.required_permissions self = [] ∨
  principal !! "permissions" = None ∨
  principal !! "permissions" = Some (PList []) →
  PermissionChecker.__call__ self request =
  Raise {| exc_status_code := 403; exc_detail := "Insufficient permissions" |}.
Proof.
  intros Hu Hne Hcase.
  rewrite (checker_with_user self request principal Hu Hne).
  assert (Hno : ∀ required, validate_permissions required (PList []) = false).
  { intros required. apply not_true_iff_false.
    rewrite validate_permissions_true. intros (perm & _ & Hmem).
    now apply elem_of_nil in Hmem. }
  destruct Hcase as [-> | [-> | ->]]; cbn [default from_option id].
  - reflexivity.
  - now rewrite Hno.
  - now rewrite Hno.
Qed.

Lemma checker_denies_without_labels_witness :
  PermissionChecker.__call__
    {| PermissionChecker.required_permissions := ["viewer"] |}
    {| path := "/mcp/tools"; headers := [];
       state := {| user := Some {[ "user_id" := PStr "alice" ]};
                   api_key := None |} |} =
  Raise {| exc_status_code := 403; exc_detail := "Insufficient permissions" |}.
Proof.
  apply (checker_denies_without_labels
           {| PermissionChecker.required_permissions := ["viewer"] |}
           {| path := "/mcp/tools"; headers := [];
              state := {| user := Some {[ "user_id" := PStr "alice" ]};
                          api_key := None |} |}
           {[ "user_id" := PStr "alice" ]} eq_refl).
  - intros E. apply (f_equal (λ m : dict, m !! "user_id")) in E.
    rewrite lookup_singleton_eq, lookup_empty in E. discriminate E.
  - right. left. apply lookup_singleton_ne. discriminate.
Defined.

(** X8.  On lists of labels the decision does not depend on which list is
    the required one, and it is monotone: labels added to either list never
    turn an allowed request into a refused one. *)
Theorem validate_permissions_symmetric_monotone
    (required required' held held' : list string) :
  validate_permissions required (PList held) =
  validate_permissions held (PList required) ∧
  (required ⊆ required' → held ⊆ held' →
   validate_permissions required (PList held) = true →
   validate_permissions required' (PList held') = true).
Proof.
  split.
  - destruct (validate_permissions held (PList required)) eqn:Hsym.
    + apply validate_permissions_true.
      apply validate_permissions_true in Hsym as (perm & H1 & H2).
      now exists perm.
    + apply not_true_iff_false. intros Hv.
      apply not_true_iff_false in Hsym. apply Hsym.
      apply validate_permissions_true.
      apply validate_permissions_true in Hv as (perm & H1 & H2).
      now exists perm.
  - intros Hr Hh Hv. apply validate_permissions_true.
    apply validate_permissions_true in Hv as (perm & H1 & H2).
    exists perm. split; [now apply Hr | now apply Hh].
Qed.

Lemma validate_permissions_symmetric_monotone_witness :
  validate_permissions ["viewer"; "admin"] (PList ["moderator"; "viewer"]) = true.
Proof.
  apply (proj2 (validate_permissions_symmetric_monotone
                  ["viewer"] ["viewer"; "admin"] ["viewer"] ["moderator"; "viewer"])).
  - intros x Hx. apply list_elem_of_singleton in Hx as ->.
    apply elem_of_cons. now left.
  - intros x Hx. apply list_elem_of_singleton in Hx as ->.
    apply elem_of_cons. right. now apply list_elem_of_singleton.
  - reflexivity.
Defined.

(** ** Configuration of the gate and issuance through it *)

(** X9.  The list of excluded paths is never empty: [None] and the empty
    list both give the four default paths, so a middleware built with an
    empty list still lets requests to those paths through without any
    credential; a non-empty list is kept as given. *)
Theorem init_excluded_paths (excluded : option (list string)) :
  let self := AuthenticationMiddleware.__init__ excluded in
  AuthenticationMiddleware.excluded_paths self ≠ [] ∧
  (excluded = None ∨ excluded = Some [] →
   AuthenticationMiddleware.excluded_paths self =
     ["/health"; "/docs"; "/openapi.json"; "/redoc"] ∧
   ∀ (call_next : Request → Response) (request : Request),
     path request ∈ ["/health"; "/docs"; "/openapi.json"; "/redoc"] →
     AuthenticationMiddleware.dispatch self call_next request =
     (call_next request, [request])) ∧
  (∀ paths : list string, excluded = Some paths → paths ≠ [] →
   AuthenticationMiddleware.excluded_paths self = paths).
Proof.
  intros self. split; [|split].
  - unfold self. destruct excluded as [[|p ps]|]; discriminate.
  - intros Hdefault.
    assert (Hpaths : AuthenticationMiddleware.excluded_paths self =
                     ["/health"; "/docs"; "/openapi.json"; "/redoc"]).
    { unfold self. destruct Hdefault as [-> | ->]; reflexivity. }
    split; [exact Hpaths|].
    intros call_next request Hin. apply dispatch_excluded. now rewrite Hpaths.
  - intros paths -> Hne. unfold self. destruct paths; [congruence | reflexivity].
Qed.

Lemma init_excluded_paths_witness :
  AuthenticationMiddleware.dispatch (AuthenticationMiddleware.__init__ (Some []))
    ok_handler {| path := "/health"; headers := []; state := fresh_state |} =
  (ok_handler {| path := "/health"; headers := []; state := fresh_state |},
   [{| path := "/health"; headers := []; state := fresh_state |}]).
Proof.
  apply (proj2 (proj1 (proj2 (init_excluded_paths (Some []))) (or_intror eq_refl))).
  compute_done.
Defined.

(** X10.  In the application the issuance route is outside the gate: a
    request to [/generate-api-key] reaches its handler whatever headers it
    carries, the handler returns a key for every identifier, and that key,
    presented on any protected path, is accepted by the gate. *)
Theorem issuance_needs_no_credential
    (call_next : Request → Response) (request : Request)
    (settings : config.Settings) (user_id : string) :
  path request = "/generate-api-key"%string →
  AuthenticationMiddleware.dispatch main.auth_middleware call_next request =
    (call_next request, [request]) ∧
  ∃ (body : dict) (key : string),
    main.generate_api_key_endpoint settings user_id = Return body ∧
    body !! "api_key" = Some (PStr key) ∧
    body !! "user_id" = Some (PStr user_id) ∧
    ∀ (call_next' : Request → Response) (request' : Request),
      path request' ∉ AuthenticationMiddleware.excluded_paths main.auth_middleware →
      AuthenticationMiddleware.extract_api_key request' = Some key →
      AuthenticationMiddleware.dispatch main.auth_middleware call_next' request' =
      (call_next' (authenticated request' key), [authenticated request' key]).
Proof.
  intros Hpath. split.
  - apply dispatch_excluded. rewrite Hpath. compute_done.
  - eexists. exists (generate_api_key user_id (config.api_key_secret settings)).
    split; [reflexivity|].
    split; [apply lookup_insert_eq|].
    split; [rewrite lookup_insert_ne by discriminate; apply lookup_insert_eq|].
    intros call_next' request' Hnot Hcred.
    pose proof (handle_bearer_issued user_id (config.api_key_secret settings)) as Hnorm.
    rewrite <- Hnorm at 1 2.
    apply dispatch_accepted; [exact Hnot | exact Hcred | |].
    + rewrite generate_api_key_unfold. discriminate.
    + rewrite Hnorm. apply middleware_accepts_issued_token.
Qed.

Lemma issuance_needs_no_credential_witness :
  AuthenticationMiddleware.dispatch main.auth_middleware ok_handler
    {| path := "/generate-api-key"; headers := []; state := fresh_state |} =
  (ok_handler {| path := "/generate-api-key"; headers := []; state := fresh_state |},
   [{| path := "/generate-api-key"; headers := []; state := fresh_state |}]).
Proof.
  apply (issuance_needs_no_credential ok_handler
           {| path := "/generate-api-key"; headers := []; state := fresh_state |}
           config.default_settings "alice" eq_refl).
Defined.

(** ** The bearer-auth dependency *)

(** X11.  [APIKeyAuth.__call__] returns credentials only when the base
    class returned them and their token is well formed; an ill-formed
    token is answered with 401, detail ["Invalid API key"] and the header
    [WWW-Authenticate: Bearer]; an exception of the base class and a
    missing credential ([None]) pass through unchanged. *)
Theorem api_key_auth_call
    (super_call : outcome HTTPError (option HTTPAuthorizationCredentials)) :
  (∀ c : HTTPAuthorizationCredentials,
     APIKeyAuth.__call__ super_call = Returned (Some c) →
     super_call = Returned (Some c) ∧ well_formed (credentials c)) ∧
  (∀ c : HTTPAuthorizationCredentials,
     super_call = Returned (Some c) → ¬ well_formed (credentials c) →
     APIKeyAuth.__call__ super_call =
     Raised {| http_exception :=
                 {| exc_status_code := 401; exc_detail := "Invalid API key" |};
               http_headers := Some [("WWW-Authenticate", "Bearer")] |}) ∧
  (∀ e : HTTPError, super_call = Raised e →
     APIKeyAuth.__call__ super_call = Raised e) ∧
  (super_call = Returned None → APIKeyAuth.__call__ super_call = Returned None).
Proof.
  assert (Hwf : ∀ token, APIKeyAuth.verify_api_key token = true ↔ well_formed token)
    by exact verify_api_key_well_formed.
  split; [|split; [|split]].
  - intros c. destruct super_call as [[c'|]|e]; cbn [APIKeyAuth.__call__];
      try discriminate.
    destruct (APIKeyAuth.verify_api_key (credentials c')) eqn:Hv;
      cbn [negb]; [|discriminate].
    intros E. injection E as ->. split; [reflexivity | now apply Hwf].
  - intros c -> Hill. cbn [APIKeyAuth.__call__].
    destruct (APIKeyAuth.verify_api_key (credentials c)) eqn:Hv; [|reflexivity].
    exfalso. apply Hill. now apply Hwf.
  - now intros e ->.
  - now intros ->.
Qed.

Lemma api_key_auth_call_witness :
  APIKeyAuth.__call__
    (Returned (Some {| scheme := "Bearer"; credentials := "garbage" |})) =
  Raised {| http_exception :=
              {| exc_status_code := 401; exc_detail := "Invalid API key" |};
            http_headers := Some [("WWW-Authenticate", "Bearer")] |}.
Proof.
  apply (proj1 (proj2 (api_key_auth_call
           (Returned (Some {| scheme := "Bearer"; credentials := "garbage" |}))))
           {| scheme := "Bearer"; credentials := "garbage" |} eq_refl).
  intros (rest & E & _). discriminate E.
Defined.

(** ** The tool-call route *)

Section ToolCall.

Context {Params Value : Type}.
Variable str_exc : exception → string.
Variable registry : outcome exception (gmap string (Params → outcome exception Value)).

(** With a user attached the route returns, or raises an [HTTPException]
    with status 500. *)
Lemma call_mcp_tool_with_user (request : Request) (principal : dict)
    (tool_name : string) (parameters : Params) :
  user (state request) = Some principal →
  (∃ response, main.call_mcp_tool str_exc registry request tool_name parameters =
               Returned response) ∨
  (∃ detail, main.call_mcp_tool str_exc registry request tool_name parameters =
             Raised (HTTPExc {| exc_status_code := 500; exc_detail := detail |})).
Proof.
  intros Hu. unfold main.call_mcp_tool. rewrite Hu.
  destruct registry as [tools|e0]; [|right; now eexists].
  destruct (tools !! tool_name) as [tool_func|]; [|right; now eexists].
  destruct (tool_func parameters); [left | right]; now eexists.
Qed.

(** When reading the registry raises, so does the route, for every name. *)
Lemma call_mcp_tool_without_registry (request : Request) (principal : dict)
    (e0 : exception) (tool_name : string) (parameters : Params) :
  user (state request) = Some principal → registry = Raised e0 →
  main.call_mcp_tool str_exc registry request tool_name parameters =
  Raised (HTTPExc {| exc_status_code := 500;
                     exc_detail := "Tool execution failed: " +:+ str_exc e0 |}).
Proof.
  intros Hu Hreg. unfold main.call_mcp_tool. now rewrite Hu, Hreg.
Qed.

End ToolCall.

(** X12.  Every [HTTPException] that [call_mcp_tool] raises has status 500:
    the 404 raised inside its [try] block is caught by its own [except]
    clause.  With a user attached, when reading [mcp._tools] raises, the
    route raises an [HTTPException] with status 500 whose detail is
    ["Tool execution failed: "] followed by the text of that exception,
    for every tool name and arguments.  With no user attached the route
    raises [AttributeError] before its [try] block. *)
Theorem call_mcp_tool_errors {Params Value : Type}
    (str_exc : exception → string)
    (registry : outcome exception (gmap string (Params → outcome exception Value)))
    (request : Request) (tool_name : string) (parameters : Params) :
  let call := main.call_mcp_tool str_exc registry request tool_name parameters in
  (∀ e : HTTPException, call = Raised (HTTPExc e) → exc_status_code e = 500%Z) ∧
  (∀ (principal : dict) (e0 : exception),
     user (state request) = Some principal → registry = Raised e0 →
     call = Raised (HTTPExc
       {| exc_status_code := 500;
          exc_detail := "Tool execution failed: " +:+ str_exc e0 |})) ∧
  (user (state request) = None →
   call = Raised (PyExc "AttributeError" "'NoneType' object has no attribute 'get'")).
Proof.
  intros call. unfold call. split; [|split].
  - intros e. destruct (user (state request)) as [principal|] eqn:Hu.
    + destruct (call_mcp_tool_with_user str_exc registry request principal
                  tool_name parameters Hu) as [[response ->] | [detail ->]].
      * discriminate.
      * intros E. now injection E as <-.
    + unfold main.call_mcp_tool. rewrite Hu. discriminate.
  - intros principal e0. apply call_mcp_tool_without_registry.
  - intros Hu. unfold main.call_mcp_tool. now rewrite Hu.
Qed.

Lemma call_mcp_tool_errors_witness :
  main.call_mcp_tool (Params := unit) (Value := Z) (λ _, "no attribute"%string)
    (Raised (PyExc "AttributeError" "'FastMCP' object has no attribute '_tools'"))
    {| path := "/mcp/call-tool"; headers := [];
       state := {| user := Some (AuthenticationMiddleware.get_user_from_api_key "");
                   api_key := None |} |}
    "send_message" tt =
  Raised (HTTPExc {| exc_status_code := 500;
                     exc_detail := "Tool execution failed: no attribute" |}).
Proof.
  apply (proj1 (proj2 (call_mcp_tool_errors (Params := unit) (Value := Z)
           (λ _, "no attribute"%string)
           (Raised (PyExc "AttributeError" "'FastMCP' object has no attribute '_tools'"))
           {| path := "/mcp/call-tool"; headers := [];
              state := {| user := Some (AuthenticationMiddleware.get_user_from_api_key "");
                          api_key := None |} |}
           "send_message" tt))
           (AuthenticationMiddleware.get_user_from_api_key "")
           (PyExc "AttributeError" "'FastMCP' object has no attribute '_tools'")
           eq_refl eq_refl).
Defined.

(** X13.  Behind the gate the tool-call route always finds its user: on a
    request handed downstream on a protected path, every exception the
    route raises is an [HTTPException] with status 500, which the
    application's handler turns into a reply with status 500 and a body
    made of that detail and the number 500; when reading [mcp._tools]
    raises, that is the reply to every call, whatever the tool name. *)
Theorem call_mcp_tool_behind_gate {Params Value : Type}
    (self : AuthenticationMiddleware.t) (call_next : Request → Response)
    (request forwarded : Request)
    (str_exc : exception → string)
    (registry : outcome exception (gmap string (Params → outcome exception Value)))
    (tool_name : string) (parameters : Params) :
  path request ∉ AuthenticationMiddleware.excluded_paths self →
  forwarded ∈ snd (AuthenticationMiddleware.dispatch self call_next request) →
  let call := main.call_mcp_tool str_exc registry forwarded tool_name parameters in
  (∀ e : exception, call = Raised e →
     ∃ detail : string,
       e = HTTPExc {| exc_status_code := 500; exc_detail := detail |} ∧
       main.exception_response e =
       {| error_status_code := 500;
          error_content := <["error" := JStr detail]>
                           (<["status_code" := JInt 500]> ∅) |}) ∧
  (∀ e0 : exception, registry = Raised e0 →
     ∃ e : exception, call = Raised e ∧
       main.exception_response e =
       {| error_status_code := 500;
          error_content :=
            <["error" := JStr ("Tool execution failed: " +:+ str_exc e0)]>
            (<["status_code" := JInt 500]> ∅) |}).
Proof.
  intros Hnot Hfw call.
  assert (Hshape : ∃ key, forwarded = authenticated request key).
  { destruct (dispatch_protected_cases self call_next request Hnot)
      as [[_ E] | [(cred & _ & _ & _ & E) | (cred & _ & _ & _ & E)]];
      rewrite E in Hfw; cbn [snd] in Hfw.
    - now apply elem_of_nil in Hfw.
    - now apply elem_of_nil in Hfw.
    - apply list_elem_of_singleton in Hfw.
      now exists (AuthenticationMiddleware.handle_bearer cred). }
  destruct Hshape as [key ->]. unfold call. split.
  - intros e.
    destruct (call_mcp_tool_with_user str_exc registry (authenticated request key)
                (AuthenticationMiddleware.get_user_from_api_key key)
                tool_name parameters eq_refl) as [[response ->] | [detail ->]].
    + discriminate.
    + intros E. injection E as <-. now exists detail.
  - intros e0 Hreg. eexists. split.
    + now apply (call_mcp_tool_without_registry str_exc registry
                   (authenticated request key)
                   (AuthenticationMiddleware.get_user_from_api_key key) e0).
    + reflexivity.
Qed.

Lemma call_mcp_tool_behind_gate_witness :
  let request := {| path := "/mcp/call-tool";
                    headers := [("x-api-key", "mcp_0123456789")];
                    state := fresh_state |} in
  ∃ e : exception,
    main.call_mcp_tool (Params := unit) (Value := Z) (λ _, "no attribute"%string)
      (Raised (PyExc "AttributeError" "'FastMCP' object has no attribute '_tools'"))
      (authenticated request "mcp_0123456789") "ping" tt = Raised e ∧
    main.exception_response e =
    {| error_status_code := 500;
       error_content :=
         <["error" := JStr "Tool execution failed: no attribute"]>
         (<["status_code" := JInt 500]> ∅) |}.
Proof.
  intros request.
  apply (proj2 (call_mcp_tool_behind_gate (Params := unit) (Value := Z)
           main.auth_middleware ok_handler request
           (authenticated request "mcp_0123456789")
           (λ _, "no attribute"%string)
           (Raised (PyExc "AttributeError" "'FastMCP' object has no attribute '_tools'"))
           "ping" tt
           ltac:(compute_done)
           ltac:(apply list_elem_of_singleton; reflexivity))
           (PyExc "AttributeError" "'FastMCP' object has no attribute '_tools'")
           eq_refl).
Defined.

(** ** The log-level setting *)

Section Case.

Lemma upper_char_idempotent (c : ascii) :
  Py.upper_char (Py.upper_char c) = Py.upper_char c.
Proof. destruct c as [[] [] [] [] [] [] [] []]; reflexivity. Qed.

Lemma upper_lower_char (c : ascii) :
  Py.upper_char (Py.lower_char c) = Py.upper_char c.
Proof. destruct c as [[] [] [] [] [] [] [] []]; reflexivity. Qed.

Lemma upper_idempotent (s : string) : Py.upper (Py.upper s) = Py.upper s.
Proof.
  induction s as [|c s IH]; [reflexivity|].
  cbn [Py.upper]. now rewrite upper_char_idempotent, IH.
Qed.

Lemma upper_lower (s : string) : Py.upper (Py.lower s) = Py.upper s.
Proof.
  induction s as [|c s IH]; [reflexivity|].
  cbn [Py.upper Py.lower]. now rewrite upper_lower_char, IH.
Qed.

End Case.

(** X14.  On strings of one-byte characters [validate_log_level] returns
    only the five upper-case level names, and a returned name passes the
    validator again unchanged; its lower-case form, which [run_server]
    hands to the server, is one of [debug], [info], [warning], [error],
    [critical].  The validator raises exactly when the upper-cased input
    is no level name, and it does not distinguish an input from its
    upper-case or lower-case form. *)
Theorem validate_log_level_normalises (v : string) :
  (∀ level : string,
     config.validate_log_level v = Returned level →
     level = Py.upper v ∧ level ∈ config.valid_levels ∧
     config.validate_log_level level = Returned level ∧
     Py.lower level ∈ ["debug"; "info"; "warning"; "error"; "critical"]) ∧
  (∀ e : config.ValueError,
     config.validate_log_level v = Raised e ↔
     (Py.upper v ∉ config.valid_levels) ∧
     e = {| config.message :=
       "Log level must be one of ['DEBUG', 'INFO', 'WARNING', 'ERROR', 'CRITICAL']" |}) ∧
  config.validate_log_level (Py.upper v) = config.validate_log_level v ∧
  config.validate_log_level (Py.lower v) = config.validate_log_level v.
Proof.
  split; [|split; [|split]].
  - intros level. unfold config.validate_log_level.
    destruct (decide (Py.upper v ∈ config.valid_levels)) as [Hin | Hnot].
    + rewrite bool_decide_eq_true_2 by exact Hin. cbn [negb].
      intros E. injection E as <-.
      split; [reflexivity|]. split; [exact Hin|]. split.
      * rewrite upper_idempotent.
        now rewrite bool_decide_eq_true_2 by exact Hin.
      * unfold config.valid_levels in Hin.
        repeat (apply elem_of_cons in Hin as [-> | Hin]; [compute_done|]).
        now apply elem_of_nil in Hin.
    + rewrite bool_decide_eq_false_2 by exact Hnot. discriminate.
  - intros e. unfold config.validate_log_level.
    destruct (decide (Py.upper v ∈ config.valid_levels)) as [Hin | Hnot].
    + rewrite bool_decide_eq_true_2 by exact Hin. cbn [negb].
      split; [discriminate | now intros [Hno _]].
    + rewrite bool_decide_eq_false_2 by exact Hnot. cbn [negb].
      split; [intros E; injection E as <-; now split | now intros [_ ->]].
  - unfold config.validate_log_level. now rewrite upper_idempotent.
  - unfold config.validate_log_level. now rewrite upper_lower.
Qed.

Lemma validate_log_level_normalises_witness :
  config.validate_log_level "Warning" = Returned "WARNING"%string ∧
  Py.lower "WARNING" ∈ ["debug"; "info"; "warning"; "error"; "critical"].
Proof.
  assert (Hv : config.validate_log_level "Warning" = Returned "WARNING"%string)
    by reflexivity.
  split; [exact Hv|].
  apply (proj1 (validate_log_level_normalises "Warning") "WARNING"%string Hv).
Defined.
